(** * harvest-link-chain / ml-service: crop price prediction service

    A shallow embedding of the Python sources under [ml-service/]:
    the feature engineering, the trainer/selector and the prediction
    function of [train_perfect_ai_model.py], the split of
    [train_enhanced_model.py], and the request handlers of [app/main.py],
    [app/main_simple.py] and [app/main_perfect.py].

    Conventions of the embedding.
    - Python floats are exact rationals ([Q]); [round(x, 2)] is rounding
      of [100 * x] to the nearest integer, ties to even.  Binary
      representation error, [inf] and [NaN] are outside the model; a
      pandas [NaN] that stands for a missing cell is [None].
    - A Python [dict] literal used as a lookup table is a [gmap]; a dict
      whose iteration order matters is an association list.
    - Code that may raise returns [exn + A]; handlers that touch the
      SQLite connection thread the connection state explicitly.
    - scikit-learn, pandas and joblib are outside the repository: their
      entry points are parameters of the sections that use them. *)

From Stdlib Require Import ZArith QArith Qround Qabs Lqa Lia List Permutation.
From stdpp Require Import base option list strings gmap.

Local Open Scope Z_scope.
Local Open Scope string_scope.

(** ** Exceptions *)

Inductive exn : Type :=
| ValueError (msg : string)
| ZeroDivisionError (msg : string)
| KeyError (key : string)
| FileNotFoundError (path : string)
| HTTPException (status_code : Z) (detail : string).

(** [str(e)] as used by the handlers' [detail=str(e)]. *)
Definition str_exn (e : exn) : string :=
  match e with
  | ValueError m => m
  | ZeroDivisionError m => m
  | KeyError k => "'" ++ k ++ "'"
  | FileNotFoundError p => p
  | HTTPException _ d => d
  end.

Definition Exc (A : Type) : Type := exn + A.

Definition ret {A} (a : A) : Exc A := inr a.
Definition raise {A} (e : exn) : Exc A := inl e.
Definition bind {A B} (m : Exc A) (k : A -> Exc B) : Exc B :=
  match m with
  | inl e => inl e
  | inr a => k a
  end.

Declare Scope exc_scope.
Delimit Scope exc_scope with exc.
Notation "'let!' x ':=' m 'in' k" := (bind m (fun x => k))
  (at level 10, x name, m at level 100, k at level 200) : exc_scope.

(** ** Numbers *)

Module Numeric.

Local Open Scope Q_scope.

(** Nearest integer, ties to even. *)
Definition round_half_even (x : Q) : Z :=
  let f := Qfloor x in
  let r := x - inject_Z f in
  match Qcompare r (1 # 2) with
  | Lt => f
  | Gt => (f + 1)%Z
  | Eq => if Z.even f then f else (f + 1)%Z
  end.

(** Python's [round(x, 2)]. *)
Definition round2 (x : Q) : Q := Qred (round_half_even (x * 100) # 100).

(** [sum(xs)] *)
Definition sum (xs : list Q) : Q := fold_left Qplus xs 0.

(** [min(xs)] and [max(xs)]: the first smallest / largest element;
    [ValueError] on an empty sequence. *)
Definition min (xs : list Q) : Exc Q :=
  match xs with
  | [] => raise (ValueError "min() arg is an empty sequence")
  | x :: xs' => ret (fold_left (fun m y => if Qlt_le_dec y m then y else m) xs' x)
  end.

Definition max (xs : list Q) : Exc Q :=
  match xs with
  | [] => raise (ValueError "max() arg is an empty sequence")
  | x :: xs' => ret (fold_left (fun m y => if Qlt_le_dec m y then y else m) xs' x)
  end.

(** True division [a / b]. *)
Definition truediv (a b : Q) : Exc Q :=
  if Qeq_bool b 0 then raise (ZeroDivisionError "division by zero")
  else ret (a / b).

End Numeric.

(** ** Rows of the single-row data frame built from a request *)

Module Data.

(** What pandas' [.dt] accessor reads off a parsed date. *)
Record date_parts : Type := {
  dayofyear : Z;
  dt_quarter : Z;
  weekday : Z
}.

(** The content of a [date] cell: [None] (parsed to [NaT]), a string
    [pd.to_datetime] rejects, or a date. *)
Inductive date_cell : Type :=
| NoDate
| BadDate (s : string)
| GoodDate (d : date_parts).

(** The input mapping: the eight required keys, the optional [date] and
    [price] columns ([None] when the key is absent from the mapping) and
    the names of any further keys (such as [area]). *)
Record raw_input : Type := {
  crop : string;
  state : string;
  soil_type : string;
  month : Z;
  temperature : Q;
  rainfall : Q;
  humidity : Q;
  prev_year_price : Q;
  date : option date_cell;
  price : option Q;
  other_columns : list string
}.

(** Number of columns of [pd.DataFrame([input_data])]. *)
Definition raw_columns (i : raw_input) : nat :=
  (8 + match date i with Some _ => 1 | None => 0 end
     + match price i with Some _ => 1 | None => 0 end
     + length (other_columns i))%nat.

(** The row after [_apply_feature_engineering]. *)
Record features : Type := {
  raw : raw_input;
  day_of_year : option Z;
  quarter : option Z;
  is_weekend : bool;
  season : option string;
  temp_rainfall_ratio : Q;
  humidity_temp_interaction : Q;
  weather_stress : Z;
  price_volatility : Q;
  price_trend : Q;
  prev_year_price_ratio : Q;
  crop_category : string;
  state_economic_factor : Q;
  soil_productivity : Q;
  crop_demand_score : Q;
  state_crop_specialization : Q
}.


(** *** Prediction results *)

Record model_metadata : Type := {
  model_type : string;
  features_used : nat;
  prediction_timestamp : string
}.

Record market_insights : Type := {
  price_trend_text : string;
  demand_forecast : string;
  weather_impact : string;
  market_volatility : string;
  recommended_actions : list string
}.

(** The result mapping.  The two last keys are absent ([None]) until a
    handler of [main_perfect.py] adds them. *)
Record prediction_result : Type := {
  predicted_price : Q;
  confidence_interval : list Q;
  currency : string;
  metadata : model_metadata;
  insights : option market_insights;
  recommendations : option (list string)
}.

End Data.

(** ** [train_perfect_ai_model.py]: feature engineering at prediction time *)

Module FeatureEngineering.

Import Data.

(** The dict literal of [df['month'].map({...})]. *)
Definition season_map : gmap Z string :=
  list_to_map
    [ (12, "Winter"); (1, "Winter"); (2, "Winter");
      (3, "Spring"); (4, "Spring"); (5, "Spring");
      (6, "Summer"); (7, "Summer"); (8, "Summer");
      (9, "Autumn"); (10, "Autumn"); (11, "Autumn") ].

(** [Series.map(dict)]: a key the dict lacks becomes [NaN]. *)
Definition season_of_month (m : Z) : option string := season_map !! m.

Definition crop_category_map : gmap string string :=
  list_to_map
    [ ("Rice", "Cereal"); ("Wheat", "Cereal"); ("Maize", "Cereal");
      ("Jowar", "Cereal"); ("Bajra", "Cereal"); ("Ragi", "Cereal");
      ("Cotton", "Fiber"); ("Sugarcane", "Sugar");
      ("Soybean", "Oilseed"); ("Groundnut", "Oilseed");
      ("Potato", "Vegetable"); ("Onion", "Vegetable");
      ("Turmeric", "Spice"); ("Arhar", "Pulse") ].

Definition state_economic_factors : gmap string Q :=
  list_to_map
    [ ("Punjab", 12 # 10); ("Maharashtra", 11 # 10); ("Karnataka", 1 # 1);
      ("Uttar Pradesh", 9 # 10); ("Madhya Pradesh", 95 # 100);
      ("Andhra Pradesh", 105 # 100); ("West Bengal", 9 # 10);
      ("Gujarat", 11 # 10); ("Rajasthan", 85 # 100);
      ("Haryana", 115 # 100) ]%Q.

Definition soil_productivity_map : gmap string Q :=
  list_to_map
    [ ("Alluvial", 12 # 10); ("Black", 11 # 10); ("Red", 1 # 1);
      ("Laterite", 9 # 10); ("Arid", 8 # 10); ("Mountain", 7 # 10) ]%Q.

(** [Series.fillna(v)] on one cell. *)
Definition fillna {A} (v : A) (cell : option A) : A :=
  match cell with
  | Some a => a
  | None => v
  end.

(** [df['crop'].map({...}).fillna('Other')] *)
Definition crop_category_of (c : string) : string :=
  fillna "Other" (crop_category_map !! c).

(** [df['state'].map(state_economic_factors).fillna(1.0)] *)
Definition state_economic_factor_of (s : string) : Q :=
  fillna (1 # 1)%Q (state_economic_factors !! s).

(** [df['soil_type'].map(soil_productivity).fillna(1.0)] *)
Definition soil_productivity_of (s : string) : Q :=
  fillna (1 # 1)%Q (soil_productivity_map !! s).

(** [np.where((temperature > 35) | (rainfall < 10), 1, 0)] *)
Definition weather_stress_of (t r : Q) : Z :=
  if (if Qlt_le_dec 35 t then true else false)
     || (if Qlt_le_dec r 10 then true else false)
  then 1 else 0.

(** The three temporal columns: from the [date] column when the frame
    has one, from [month] otherwise. *)
Definition temporal (i : raw_input) : Exc (option Z * option Z * bool) :=
  match date i with
  | Some (GoodDate d) =>
      ret (Some (dayofyear d), Some (dt_quarter d), bool_decide (5 <= weekday d))
  | Some NoDate => ret (None, None, false)
  | Some (BadDate s) => raise (ValueError ("Unknown datetime string format: " ++ s))
  | None => ret (Some (month i * 30), Some ((month i - 1) / 3 + 1), false)
  end.

(** [_apply_feature_engineering], on a one-row frame.  A zero divisor
    in the two ratios gives [inf] in pandas and is outside the model. *)
Definition _apply_feature_engineering (i : raw_input) : Exc features :=
  (let! t := temporal i in
   ret {| raw := i;
          day_of_year := t.1.1;
          quarter := t.1.2;
          is_weekend := t.2;
          season := season_of_month (month i);
          temp_rainfall_ratio := (temperature i / (rainfall i + 1))%Q;
          humidity_temp_interaction := (humidity i * temperature i)%Q;
          weather_stress := weather_stress_of (temperature i) (rainfall i);
          price_volatility := 100%Q;
          price_trend := 0%Q;
          prev_year_price_ratio :=
            match price i with
            | Some p => (p / (prev_year_price i + 1))%Q
            | None => 1%Q
            end;
          crop_category := crop_category_of (crop i);
          state_economic_factor := state_economic_factor_of (state i);
          soil_productivity := soil_productivity_of (soil_type i);
          crop_demand_score := 2000%Q;
          state_crop_specialization := 100%Q |})%exc.

(** [len(df.columns)] after feature engineering: fifteen columns are
    assigned, none of which an input mapping of the API carries. *)
Definition engineered_columns (i : raw_input) : nat := (raw_columns i + 15)%nat.

End FeatureEngineering.

(** ** [train_perfect_ai_model.py]: [PerfectCropPricePredictor.predict] *)

Module Predictor.

Import Data Numeric FeatureEngineering.

(** A fitted artifact as the prediction function sees it:
    [best_model.predict(df_input)[0]], which may raise. *)
Definition model : Type := features -> Exc Q.

(** [predict(self, input_data)] for a mapping [input_data]; [now] is
    the reading of [datetime.now().isoformat()]. *)
Definition predict (best_model : option model) (now : string)
    (input_data : raw_input) : Exc prediction_result :=
  match best_model with
  | None => raise (ValueError "Model not trained yet. Call train() first.")
  | Some m =>
      (let! df_input := _apply_feature_engineering input_data in
       let! prediction := m df_input in
       let confidence := [prediction * (9 # 10); prediction * (11 # 10)]%Q in
       ret {| predicted_price := round2 prediction;
              confidence_interval := map round2 confidence;
              currency := "INR";
              metadata :=
                {| model_type := "Ensemble";
                   features_used := engineered_columns input_data;
                   prediction_timestamp := now |};
              insights := None;
              recommendations := None |})%exc
  end.

End Predictor.

(** ** [app/main.py] *)

Module Main.

Import Numeric.

Record CropPredictionInput : Type := {
  crop : string;
  state : string;
  month : Z;
  year : Z;
  area : Q;
  rainfall : Q;
  temperature : Q;
  humidity : Q
}.

Record PredictionResponse : Type := {
  predicted_price : Q;
  confidence_interval : list Q;
  currency : string
}.

(** The one-row frame handed to the model: a categorical cell holds the
    request's string until a label encoder replaces it by its code. *)
Record frame : Type := {
  Crop : string + Z;
  State : string + Z;
  Month : Z;
  Year : Z;
  Area : Q;
  Rainfall : Q;
  Temperature : Q;
  Humidity : Q
}.

(** [encoders]: column name to [LabelEncoder.transform], which raises
    on a label it was not fitted on. *)
Definition encoders_t : Type := gmap string (string -> Exc Z).
Definition model_t : Type := frame -> Exc Q.

(** [if col in encoders: df[col] = encoders[col].transform(df[col])] *)
Definition encode (encoders : encoders_t) (col : string) (v : string)
    : Exc (string + Z) :=
  match encoders !! col with
  | Some transform => (let! code := transform v in ret (inr code))%exc
  | None => ret (inl v)
  end.

(** [try: ... except Exception as e: raise HTTPException(400, str(e))] *)
Definition except_400 {A} (body : Exc A) : Exc A :=
  match body with
  | inl e => raise (HTTPException 400 (str_exn e))
  | inr a => ret a
  end.

Definition predict_price (model : option model_t) (encoders : option encoders_t)
    (input_data : CropPredictionInput) : Exc PredictionResponse :=
  match model, encoders with
  | Some model, Some encoders =>
      except_400
        (let! c := encode encoders "Crop" (crop input_data) in
         let! s := encode encoders "State" (state input_data) in
         let df := {| Crop := c; State := s;
                      Month := month input_data; Year := year input_data;
                      Area := area input_data; Rainfall := rainfall input_data;
                      Temperature := temperature input_data;
                      Humidity := humidity input_data |} in
         let! prediction := model df in
         let confidence := [prediction * (9 # 10); prediction * (11 # 10)]%Q in
         ret {| predicted_price := round2 prediction;
                confidence_interval := map round2 confidence;
                currency := "INR" |})%exc
  | _, _ => raise (HTTPException 503 "Model not loaded")
  end.

(** Module start-up: both artifacts load, or both names are [None]. *)
Definition startup (load_model : Exc model_t) (load_encoders : Exc encoders_t)
    : option model_t * option encoders_t :=
  match load_model, load_encoders with
  | inr model, inr encoders => (Some model, Some encoders)
  | _, _ => (None, None)
  end.

End Main.

(** ** [app/main_simple.py] *)

Module MainSimple.

Import Numeric.

Record PredictionInput : Type := {
  crop : string;
  state : string;
  soil_type : string;
  month : Z;
  temperature : Q;
  rainfall : Q;
  humidity : Q;
  prev_year_price : Q
}.

(** [df_input] after the three assignments of [predict_price]. *)
Record frame : Type := {
  input : PredictionInput;
  temp_rainfall_ratio : Q;
  humidity_temp_interaction : Q;
  season : option string
}.

Definition model_t : Type := frame -> Exc Q.

Definition season_map : gmap Z string :=
  list_to_map
    [ (12, "Winter"); (1, "Winter"); (2, "Winter");
      (3, "Spring"); (4, "Spring"); (5, "Spring");
      (6, "Summer"); (7, "Summer"); (8, "Summer");
      (9, "Autumn"); (10, "Autumn"); (11, "Autumn") ].

Definition feature_engineering (i : PredictionInput) : frame :=
  {| input := i;
     temp_rainfall_ratio := (temperature i / (rainfall i + 1))%Q;
     humidity_temp_interaction := (humidity i * temperature i)%Q;
     season := season_map !! month i |}.

Record PredictionResponse : Type := {
  predicted_price : Q;
  confidence_interval : list Q;
  currency : string;
  model_metadata_of : Data.model_metadata
}.

Definition predict_price (MODEL : option model_t) (now : string)
    (input_data : PredictionInput) : Exc PredictionResponse :=
  match MODEL with
  | None => raise (HTTPException 503 "Model not available")
  | Some MODEL =>
      Main.except_400
        (let df_input := feature_engineering input_data in
         let! prediction := MODEL df_input in
         let confidence_interval := [prediction * (9 # 10); prediction * (11 # 10)]%Q in
         ret {| predicted_price := round2 prediction;
                confidence_interval := map round2 confidence_interval;
                currency := "INR";
                model_metadata_of :=
                  {| Data.model_type := "RandomForest";
                     Data.features_used := 11;
                     Data.prediction_timestamp := now |} |})%exc
  end.

(** The route [POST /predict]. *)
Definition predict_crop_price := predict_price.

(** Module start-up: [MODEL] stays [None] when [joblib.load] raises. *)
Definition startup (load_model : Exc model_t) : option model_t :=
  match load_model with
  | inr model => Some model
  | inl _ => None
  end.

Record health : Type := {
  status : string;
  model_loaded : bool;
  timestamp : string;
  version : string
}.

(** [GET /health]; [utcnow] is [datetime.utcnow().isoformat()]. *)
Definition health_check (MODEL : option model_t) (utcnow : string) : health :=
  {| status := "healthy";
     model_loaded := match MODEL with Some _ => true | None => false end;
     timestamp := utcnow;
     version := "1.0.0" |}.

End MainSimple.

(** ** [app/main_perfect.py] *)

Module MainPerfect.

Import Data Numeric.

(** *** The SQLite connection

    Only the [predictions] table is written by the handlers below.  A
    row is the tuple bound to the [INSERT]; [json.dumps] of a value is
    the value.  [execute] opens or extends the implicit transaction,
    [commit] makes its rows durable. *)
Record prediction_row : Type := {
  user_id : Z;
  input_data_json : raw_input;
  prediction_result_json : prediction_result;
  model_used : string
}.

Record connection : Type := {
  committed : list prediction_row;
  pending : list prediction_row
}.

Definition execute_insert (r : prediction_row) (db : connection) : connection :=
  {| committed := committed db; pending := pending db ++ [r] |}.

Definition commit (db : connection) : connection :=
  {| committed := committed db ++ pending db; pending := [] |}.

(** *** Request and response models *)

Record User : Type := {
  id : Z;
  username : string;
  email : string
}.

Record PredictionInput : Type := {
  crop : string;
  state : string;
  soil_type : string;
  month : Z;
  temperature : Q;
  rainfall : Q;
  humidity : Q;
  prev_year_price : Q;
  area : option Q;
  date : date_cell
}.

(** [input_data.dict()]: every field of the model is a key, so the
    frame built from it has a [date] and an [area] column, and no
    [price] column. *)
Definition dict (i : PredictionInput) : raw_input :=
  {| Data.crop := crop i;
     Data.state := state i;
     Data.soil_type := soil_type i;
     Data.month := month i;
     Data.temperature := temperature i;
     Data.rainfall := rainfall i;
     Data.humidity := humidity i;
     Data.prev_year_price := prev_year_price i;
     Data.date := Some (date i);
     Data.price := None;
     Data.other_columns := ["area"] |}.

Record BatchPredictionRequest : Type := {
  predictions : list PredictionInput;
  include_insights : bool
}.

Record summary_t : Type := {
  total_predictions : nat;
  average_price : Q;
  price_range : list Q;
  summary_currency : string
}.

Record BatchPredictionResponse : Type := {
  results : list prediction_result;
  summary : summary_t
}.

(** [PREDICT_FN]: the bound method [predictor.predict], or [None]. *)
Definition predict_fn : Type := raw_input -> Exc prediction_result.

(** Module start-up: [PREDICT_FN] is what [create_prediction_pipeline]
    returns, else the [predict] of a predictor trained on the spot, else
    [None]. *)
Definition startup (create_prediction_pipeline : Exc predict_fn)
    (train_new_model : Exc predict_fn) : option predict_fn :=
  match create_prediction_pipeline with
  | inr f => Some f
  | inl _ =>
      match train_new_model with
      | inr f => Some f
      | inl _ => None
      end
  end.

(** *** Helper functions *)

Definition lower_ascii (c : Ascii.ascii) : Ascii.ascii :=
  let n := Ascii.N_of_ascii c in
  if (65 <=? n)%N && (n <=? 90)%N then Ascii.ascii_of_N (n + 32) else c.

(** [str.lower], on ASCII letters. *)
Fixpoint lower (s : string) : string :=
  match s with
  | EmptyString => EmptyString
  | String c s' => String (lower_ascii c) (lower s')
  end.

Definition str_in (s : string) (l : list string) : bool :=
  existsb (String.eqb s) l.

Definition generate_market_insights (crop : string) (state : string)
    : market_insights :=
  let actions :=
    [ "Monitor weather forecasts closely";
      "Consider staggered selling strategy";
      "Check local market prices regularly" ] in
  if str_in (lower crop) ["rice"; "wheat"] then
    {| price_trend_text := "Stable with seasonal variations";
       demand_forecast := "Consistent high demand";
       weather_impact := "Favorable conditions";
       market_volatility := "Low to moderate";
       recommended_actions := actions |}
  else if str_in (lower crop) ["cotton"; "sugarcane"] then
    {| price_trend_text := "Volatile with export dependencies";
       demand_forecast := "High demand expected";
       weather_impact := "Favorable conditions";
       market_volatility := "High";
       recommended_actions := actions |}
  else if str_in (lower crop) ["potato"; "onion"] then
    {| price_trend_text := "Highly seasonal";
       demand_forecast := "High demand expected";
       weather_impact := "Favorable conditions";
       market_volatility := "Very high";
       recommended_actions :=
         actions ++ ["Consider cold storage for better prices"] |}
  else
    {| price_trend_text := "Stable to increasing";
       demand_forecast := "High demand expected";
       weather_impact := "Favorable conditions";
       market_volatility := "Low to moderate";
       recommended_actions := actions |}.

Definition Qgtb (a b : Q) : bool := if Qlt_le_dec b a then true else false.
Definition Qltb (a b : Q) : bool := if Qlt_le_dec a b then true else false.

Definition Z_in (z : Z) (l : list Z) : bool := existsb (Z.eqb z) l.

Definition generate_recommendations (prediction : prediction_result)
    (input_data : raw_input) : list string :=
  (if Qgtb (predicted_price prediction) 3000
   then ["High price predicted - consider selling soon"]
   else if Qltb (predicted_price prediction) 1500
   then ["Low price predicted - consider holding or finding better markets"]
   else [])
  ++ (if Qgtb (Data.temperature input_data) 35
      then ["High temperature detected - monitor crop health closely"]
      else [])
  ++ (if Qltb (Data.rainfall input_data) 50
      then ["Low rainfall - consider irrigation if possible"]
      else [])
  ++ (if Z_in (Data.month input_data) [10; 11; 12; 1; 2]
      then ["Winter season - prices typically stable"]
      else if Z_in (Data.month input_data) [6; 7; 8; 9]
      then ["Monsoon season - monitor for weather-related price fluctuations"]
      else []).

(** *** Handlers: exceptions over the connection state *)

Definition Handler (A : Type) : Type := connection -> Exc A * connection.

Definition hret {A} (a : A) : Handler A := fun db => (inr a, db).
Definition hraise {A} (e : exn) : Handler A := fun db => (inl e, db).
Definition hbind {A B} (m : Handler A) (k : A -> Handler B) : Handler B :=
  fun db =>
    match m db with
    | (inl e, db') => (inl e, db')
    | (inr a, db') => k a db'
    end.
Definition lift {A} (m : Exc A) : Handler A := fun db => (m, db).
Definition db_execute_insert (r : prediction_row) : Handler unit :=
  fun db => (inr tt, execute_insert r db).
Definition db_commit : Handler unit := fun db => (inr tt, commit db).

(** [try: body except Exception as e: raise HTTPException(400, str(e))];
    what the body wrote before it raised stays written. *)
Definition try_except_400 {A} (body : Handler A) : Handler A :=
  fun db =>
    match body db with
    | (inl e, db') => (inl (HTTPException 400 (str_exn e)), db')
    | (inr a, db') => (inr a, db')
    end.

Notation "'do!' x ':=' m 'in' k" := (hbind m (fun x => k))
  (at level 10, x name, m at level 100, k at level 200).
Notation "m1 ';;!' m2" := (hbind m1 (fun _ => m2))
  (at level 100, right associativity).

Definition with_insights (result : prediction_result) (i : market_insights)
    (r : list string) : prediction_result :=
  {| predicted_price := predicted_price result;
     confidence_interval := confidence_interval result;
     currency := currency result;
     metadata := metadata result;
     insights := Some i;
     recommendations := Some r |}.

Definition save_prediction (current_user : User) (input_dict : raw_input)
    (result : prediction_result) : Handler unit :=
  db_execute_insert {| user_id := id current_user;
                       input_data_json := input_dict;
                       prediction_result_json := result;
                       model_used := "perfect_ai" |} ;;!
  db_commit.

(** [POST /predict]; [current_user] is the user the [get_current_user]
    dependency resolved before the body runs. *)
Definition predict_price (PREDICT_FN : option predict_fn)
    (input_data : PredictionInput) (current_user : User)
    : Handler prediction_result :=
  match PREDICT_FN with
  | None => hraise (HTTPException 503 "Prediction service not available")
  | Some PREDICT_FN =>
      try_except_400
        (let input_dict := dict input_data in
         do! result := lift (PREDICT_FN input_dict) in
         let market_insights :=
           generate_market_insights (crop input_data) (state input_data) in
         let recommendations := generate_recommendations result input_dict in
         let result := with_insights result market_insights recommendations in
         save_prediction current_user input_dict result ;;!
         hret result)
  end.

(** The [for] loop of [predict_batch]; [results] is the list built so far. *)
Fixpoint batch_loop (PREDICT_FN : predict_fn) (include_insights : bool)
    (current_user : User) (items : list PredictionInput)
    (results : list prediction_result) : Handler (list prediction_result) :=
  match items with
  | [] => hret results
  | input_data :: rest =>
      let input_dict := dict input_data in
      do! result := lift (PREDICT_FN input_dict) in
      let result :=
        if include_insights then
          with_insights result
            (generate_market_insights (crop input_data) (state input_data))
            (generate_recommendations result input_dict)
        else result in
      save_prediction current_user input_dict result ;;!
      batch_loop PREDICT_FN include_insights current_user rest (results ++ [result])
  end.

(** The summary computed after the loop. *)
Definition summarize (total_predictions : nat)
    (results : list prediction_result) : Exc BatchPredictionResponse :=
  (let prices := map predicted_price results in
   let! avg_price := truediv (sum prices) (inject_Z (Z.of_nat (length results))) in
   let! lo := Numeric.min prices in
   let! hi := Numeric.max prices in
   ret {| results := results;
          summary := {| total_predictions := total_predictions;
                        average_price := round2 avg_price;
                        price_range := map round2 [lo; hi];
                        summary_currency := "INR" |} |})%exc.

(** [POST /predict/batch] *)
Definition predict_batch (PREDICT_FN : option predict_fn)
    (request : BatchPredictionRequest) (current_user : User)
    : Handler BatchPredictionResponse :=
  match PREDICT_FN with
  | None => hraise (HTTPException 503 "Prediction service not available")
  | Some PREDICT_FN =>
      try_except_400
        (let total_predictions := length (predictions request) in
         do! results := batch_loop PREDICT_FN (include_insights request)
                          current_user (predictions request) [] in
         lift (summarize total_predictions results))
  end.

Record health : Type := {
  status : string;
  model_loaded : bool;
  database_connected : bool;
  timestamp : string;
  version : string
}.

(** What the loop leaves in the [predictions] table for one item. *)
Definition row_of (PREDICT_FN : predict_fn) (include_insights : bool)
    (current_user : User) (input_data : PredictionInput) : option prediction_row :=
  match PREDICT_FN (dict input_data) with
  | inl _ => None
  | inr result =>
      Some {| user_id := id current_user;
              input_data_json := dict input_data;
              prediction_result_json :=
                if include_insights then
                  with_insights result
                    (generate_market_insights (crop input_data) (state input_data))
                    (generate_recommendations result (dict input_data))
                else result;
              model_used := "perfect_ai" |}
  end.

(** [execute] then [commit], once per row. *)
Definition persist_all (rows : list prediction_row) (db : connection) : connection :=
  fold_left (fun db r => commit (execute_insert r db)) rows db.

(** [GET /health]; [utcnow] is [datetime.utcnow().isoformat()]. *)
Definition health_check (PREDICT_FN : option predict_fn) (utcnow : string)
    : health :=
  {| status := "healthy";
     model_loaded := match PREDICT_FN with Some _ => true | None => false end;
     database_connected := true;
     timestamp := utcnow;
     version := "2.0.0" |}.

End MainPerfect.

(** ** Python containers used by the trainer *)

Module Py.

(** A [dict] with string keys, in insertion order. *)
Definition dict (V : Type) : Type := list (string * V).

(** [d[k] = v]: an existing key keeps its position. *)
Fixpoint dict_set {V} (k : string) (v : V) (d : dict V) : dict V :=
  match d with
  | [] => [(k, v)]
  | (k', v') :: d' =>
      if String.eqb k k' then (k, v) :: d' else (k', v') :: dict_set k v d'
  end.

(** [d[k]] *)
Fixpoint dict_get {V} (k : string) (d : dict V) : Exc V :=
  match d with
  | [] => raise (KeyError k)
  | (k', v) :: d' => if String.eqb k k' then ret v else dict_get k d'
  end.

Section Keyed.
Context {A : Type} (key : A -> Q).

(** The comparison step of [max]: a later item wins only when its key
    is strictly larger. *)
Definition later_if_larger (best y : A) : A :=
  if Qlt_le_dec (key best) (key y) then y else best.

(** [max(xs, key=key)]: the first item whose key is largest. *)
Definition max_by (xs : list A) : Exc A :=
  match xs with
  | [] => raise (ValueError "max() arg is an empty sequence")
  | x :: xs' => ret (fold_left later_if_larger xs' x)
  end.

(** [sorted(xs, key=key, reverse=True)]: descending and stable, items
    with equal keys keep their order. *)
Fixpoint insert_desc (x : A) (l : list A) : list A :=
  match l with
  | [] => [x]
  | y :: l' =>
      if Qlt_le_dec (key x) (key y) then y :: insert_desc x l' else x :: l
  end.

Definition sorted_reverse (xs : list A) : list A :=
  fold_right insert_desc [] xs.

(** The first largest item, computed from the right. *)
Fixpoint first_largest (l : list A) : option A :=
  match l with
  | [] => None
  | x :: l' =>
      Some match first_largest l' with
           | None => x
           | Some h => later_if_larger x h
           end
  end.

(** Non-increasing keys. *)
Definition descending (l : list A) : Prop :=
  forall l1 l2, l = (l1 ++ l2)%list ->
    forall a b, a ∈ l1 -> b ∈ l2 -> (key b <= key a)%Q.

End Keyed.

End Py.

(** ** scikit-learn's [train_test_split], as the trainers call it *)

Module Sklearn.

(** The keyword arguments the trainers pass. *)
Record split_params : Type := {
  test_size : Q;
  random_state : Z;
  stratify : option (list string)
}.

(** [train_test_split(X, y, **params)]: [(X_train, X_test, y_train,
    y_test)], or the library's exception. *)
Definition train_test_split_t : Type :=
  forall Row : Type,
    split_params -> list Row -> list Q ->
    Exc (list Row * list Row * list Q * list Q).

Record metrics : Type := {
  mae : Q;
  r2 : Q;
  rmse : Q
}.

(** Rows of [l] at the positions [idx], in that order. *)
Definition select {A} (idx : list nat) (l : list A) : list A :=
  omap (fun i => l !! i) idx.




End Sklearn.

(** ** [train_perfect_ai_model.py]: the trainer *)

Module Trainer.

Import Sklearn.

(** A row of the training CSV. *)
Record observation : Type := {
  date : Data.date_cell;
  year : Z;
  month : Z;
  state : string;
  crop : string;
  soil_type : string;
  temperature : Q;
  rainfall : Q;
  humidity : Q;
  prev_year_price : Q;
  price : Q
}.

(** A row after [load_and_prepare_data].  The table lookups are not
    followed by [fillna] here, so a key a table lacks leaves [NaN]. *)
Record train_features : Type := {
  obs : observation;
  day_of_year : option Z;
  quarter : option Z;
  is_weekend : bool;
  season : option string;
  temp_rainfall_ratio : Q;
  humidity_temp_interaction : Q;
  weather_stress : Z;
  price_volatility : option Q;
  price_trend : option Q;
  prev_year_price_ratio : Q;
  crop_category : option string;
  state_economic_factor : option Q;
  soil_productivity : option Q;
  crop_demand_score : option Q;
  state_crop_specialization : option Q
}.

(** The dict literal of [load_and_prepare_data]. *)
Definition season_map : gmap Z string :=
  list_to_map
    [ (12, "Winter"); (1, "Winter"); (2, "Winter");
      (3, "Spring"); (4, "Spring"); (5, "Spring");
      (6, "Summer"); (7, "Summer"); (8, "Summer");
      (9, "Autumn"); (10, "Autumn"); (11, "Autumn") ].

(** The candidate regressors, in the order of the [models] dict. *)
Definition candidates : list string :=
  [ "RandomForest"; "GradientBoosting"; "ExtraTrees"; "Ridge"; "Lasso";
    "ElasticNet"; "SVR" ].

Section WithLibraries.

(** Fitted scikit-learn objects. *)
Context {Pipeline Ensemble : Type}.

(** [self.best_model]: first the best single pipeline, then the
    voting ensemble. *)
Inductive artifact : Type :=
| SinglePipeline (p : Pipeline)
| VotingEnsemble (e : Ensemble).

(** What [joblib.dump] and [json.dump] leave under [models/]. *)
Inductive file : Type :=
| PickledBestModel (a : option artifact)
| PickledPipeline (p : Pipeline)
| MetadataJson (model_performance : Py.dict metrics)
    (training_timestamp : string) (best_model : string).

(** The fields of the predictor that training and serving read. *)
Record predictor : Type := {
  models : Py.dict Pipeline;
  best_model : option artifact;
  model_performance : Py.dict metrics
}.

(** [__init__] *)
Definition init : predictor :=
  {| models := []; best_model := None; model_performance := [] |}.

(** pandas *)
Variable read_csv : string -> Exc (list observation).
(** [df.groupby(keys)['price'].transform(agg)], one cell per row. *)
Variable groupby_transform :
  list string -> string -> list observation -> list (option Q).

(** scikit-learn *)
Variable train_test_split : train_test_split_t.
(** [Pipeline([preprocessor, SelectKBest(f_regression, k), model]).fit] *)
Variable pipeline_fit :
  string -> nat -> list train_features -> list Q -> Exc Pipeline.
Variable pipeline_predict : Pipeline -> list train_features -> Exc (list Q).
(** [VotingRegressor(estimators).fit] *)
Variable voting_fit :
  list (string * Pipeline) -> list train_features -> list Q -> Exc Ensemble.
Variable voting_predict : Ensemble -> list train_features -> Exc (list Q).
Variable mean_absolute_error r2_score root_mean_squared_error :
  list Q -> list Q -> Q.

Definition cell (col : list (option Q)) (i : nat) : option Q :=
  mjoin (col !! i).

(** [load_and_prepare_data] *)
Definition load_and_prepare_data (file_path : string)
    : Exc (list train_features) :=
  (let! df := read_csv file_path in
   let! dates :=
     (fix to_datetime (l : list observation) : Exc (list (option Data.date_parts)) :=
        match l with
        | [] => ret []
        | o :: l' =>
            match date o with
            | Data.BadDate s =>
                raise (ValueError ("Unknown datetime string format: " ++ s))
            | Data.NoDate => let! r := to_datetime l' in ret (None :: r)
            | Data.GoodDate d => let! r := to_datetime l' in ret (Some d :: r)
            end
        end) df in
   let price_volatility := groupby_transform ["crop"; "state"] "std" df in
   let price_trend := groupby_transform ["crop"; "state"] "pct_change" df in
   let crop_demand_score := groupby_transform ["crop"] "mean" df in
   let state_crop_specialization :=
     groupby_transform ["state"; "crop"] "count" df in
   ret (imap (fun i o =>
          let d := mjoin (dates !! i) in
          {| obs := o;
             day_of_year := Data.dayofyear <$> d;
             quarter := Data.dt_quarter <$> d;
             is_weekend :=
               match d with
               | Some d => bool_decide (5 <= Data.weekday d)
               | None => false
               end;
             season := season_map !! month o;
             temp_rainfall_ratio := (temperature o / (rainfall o + 1))%Q;
             humidity_temp_interaction := (humidity o * temperature o)%Q;
             weather_stress :=
               FeatureEngineering.weather_stress_of (temperature o) (rainfall o);
             price_volatility := cell price_volatility i;
             price_trend := cell price_trend i;
             prev_year_price_ratio := (price o / (prev_year_price o + 1))%Q;
             crop_category := FeatureEngineering.crop_category_map !! crop o;
             state_economic_factor :=
               FeatureEngineering.state_economic_factors !! state o;
             soil_productivity :=
               FeatureEngineering.soil_productivity_map !! soil_type o;
             crop_demand_score := cell crop_demand_score i;
             state_crop_specialization := cell state_crop_specialization i |})
          df))%exc.

(** [prepare_features_and_target]: the feature rows and the target. *)
Definition prepare_features_and_target (df : list train_features)
    : list train_features * list Q :=
  (df, map (fun r => price (obs r)) df).

(** The keyword arguments of the split in [train]. *)
Definition split_params_of (df : list train_features) : split_params :=
  {| test_size := 2 # 10;
     random_state := 42;
     stratify := Some (map (fun r => crop (obs r)) df) |}.

(** The split of [train]: [train_test_split(X, y, test_size=0.2,
    random_state=42, stratify=df['crop'])]. *)
Definition split_data (df : list train_features)
    : Exc (list train_features * list train_features * list Q * list Q) :=
  let '(X, y) := prepare_features_and_target df in
  train_test_split train_features (split_params_of df) X y.

(** One iteration of the loop of [train_ensemble_models]. *)
Definition train_candidate (X_train : list train_features) (y_train : list Q)
    (X_test : list train_features) (y_test : list Q)
    (name : string) (self : predictor) : Exc predictor :=
  (let! pipeline := pipeline_fit name 15 X_train y_train in
   let! y_pred := pipeline_predict pipeline X_test in
   let perf := {| mae := mean_absolute_error y_test y_pred;
                  r2 := r2_score y_test y_pred;
                  rmse := root_mean_squared_error y_test y_pred |} in
   ret {| models := Py.dict_set name pipeline (models self);
          best_model := best_model self;
          model_performance :=
            Py.dict_set name perf (model_performance self) |})%exc.

Fixpoint train_candidates (X_train : list train_features) (y_train : list Q)
    (X_test : list train_features) (y_test : list Q)
    (names : list string) (self : predictor) : Exc predictor :=
  match names with
  | [] => ret self
  | name :: rest =>
      (let! self := train_candidate X_train y_train X_test y_test name self in
       train_candidates X_train y_train X_test y_test rest self)%exc
  end.

(** [train_ensemble_models]: returns [best_model_name]. *)
Definition train_ensemble_models (X_train : list train_features)
    (y_train : list Q) (X_test : list train_features) (y_test : list Q)
    (self : predictor) : Exc (string * predictor) :=
  (let! self := train_candidates X_train y_train X_test y_test candidates self in
   let! best := Py.max_by (fun kv : string * metrics => r2 kv.2)
                  (model_performance self) in
   let best_model_name := best.1 in
   let! p := Py.dict_get best_model_name (models self) in
   ret (best_model_name,
        {| models := models self;
           best_model := Some (SinglePipeline p);
           model_performance := model_performance self |}))%exc.

(** [estimators = [(name, self.models[name]) for name, _ in top_models]] *)
Fixpoint estimators_of (self : predictor) (top_models : list (string * metrics))
    : Exc (list (string * Pipeline)) :=
  match top_models with
  | [] => ret []
  | (name, _) :: rest =>
      (let! p := Py.dict_get name (models self) in
       let! ps := estimators_of self rest in
       ret ((name, p) :: ps))%exc
  end.

(** [sorted(self.model_performance.items(), key=..., reverse=True)[:3]] *)
Definition top_models_of (self : predictor) : list (string * metrics) :=
  take 3 (Py.sorted_reverse (fun kv : string * metrics => r2 kv.2)
            (model_performance self)).

(** [create_ensemble_predictor] *)
Definition create_ensemble_predictor (X_train : list train_features)
    (y_train : list Q) (self : predictor) : Exc Ensemble :=
  (let top_models := top_models_of self in
   let! estimators := estimators_of self top_models in
   voting_fit estimators X_train y_train)%exc.

(** [save_models]; [now] is [datetime.now().isoformat()]. *)
Definition save_models (now : string) (self : predictor)
    (fs : gmap string file) : gmap string file :=
  let fs :=
    <["models/perfect_crop_price_model.pkl" := PickledBestModel (best_model self)]> fs in
  let fs :=
    fold_left (fun fs (kv : string * Pipeline) =>
                 <["models/" ++ MainPerfect.lower kv.1 ++ "_model.pkl"
                   := PickledPipeline kv.2]> fs)
      (models self) fs in
  <["models/model_metadata.json"
    := MetadataJson (model_performance self) now "ensemble"]> fs.

(** [train]: the returned [self.best_model], the predictor and the
    files under [models/]. *)
Definition train (now : string) (file_path : string) (self : predictor)
    (fs : gmap string file) : Exc (artifact * predictor * gmap string file) :=
  (let! df := load_and_prepare_data file_path in
   let! split := split_data df in
   let '(X_train, X_test, y_train, y_test) := split in
   let! trained := train_ensemble_models X_train y_train X_test y_test self in
   let '(best_model_name, self) := trained in
   let! ensemble_model := create_ensemble_predictor X_train y_train self in
   let! y_pred_ensemble := voting_predict ensemble_model X_test in
   let self := {| models := models self;
                  best_model := Some (VotingEnsemble ensemble_model);
                  model_performance := model_performance self |} in
   let fs := save_models now self fs in
   ret (VotingEnsemble ensemble_model, self, fs))%exc.

(** The pipeline [p] is candidate [n] fitted on the training split. *)
Definition fitted (X_train : list train_features) (y_train : list Q)
    (n : string) (p : Pipeline) : Prop :=
  pipeline_fit n 15 X_train y_train = inr p.

(** [m] holds the scores of [p] on the held-out split. *)
Definition scored (X_test : list train_features) (y_test : list Q)
    (p : Pipeline) (m : metrics) : Prop :=
  exists y_pred,
    pipeline_predict p X_test = inr y_pred
    /\ m = {| mae := mean_absolute_error y_test y_pred;
              r2 := r2_score y_test y_pred;
              rmse := root_mean_squared_error y_test y_pred |}.

End WithLibraries.

End Trainer.

(** ** [train_enhanced_model.py] *)

Module TrainEnhanced.

Import Sklearn.

Record row : Type := {
  state : string;
  district : string;
  market : string;
  commodity : string;
  variety : string;
  min_price : Q;
  max_price : Q;
  modal_price : Q
}.

Section WithLibraries.

Context {Pipeline : Type}.
Variable train_test_split : train_test_split_t.
Variable pipeline_fit : list row -> list Q -> Exc Pipeline.
Variable pipeline_predict : Pipeline -> list row -> Exc (list Q).

(** The keyword arguments of the split in [train_model]. *)
Definition split_params_of (df : list row) : split_params :=
  {| test_size := 2 # 10; random_state := 42; stratify := None |}.

(** The split of [train_model]: [train_test_split(X, y, test_size=0.2,
    random_state=42)]. *)
Definition split_data (df : list row)
    : Exc (list row * list row * list Q * list Q) :=
  let X := df in
  let y := map modal_price df in
  train_test_split row (split_params_of df) X y.

(** [train_model]: the fitted model and the file [joblib.dump] writes. *)
Definition train_model (df : list row) (fs : gmap string Pipeline)
    : Exc (Pipeline * gmap string Pipeline) :=
  (let! split := split_data df in
   let '(X_train, X_test, y_train, y_test) := split in
   let! model := pipeline_fit X_train y_train in
   let! y_pred := pipeline_predict model X_test in
   ret (model, <["crop_price_model.pkl" := model]> fs))%exc.

End WithLibraries.

End TrainEnhanced.

(** * Specification vocabulary and example data *)

(** [ci] is the pair [0.9 * p], [1.1 * p] up to the error two roundings
    to two decimals leave: 0.0095 below, 0.0105 above. *)
Definition band_within_rounding (p : Q) (ci : list Q) : Prop :=
  exists lo hi,
    ci = [lo; hi]
    /\ (Qabs (lo - (9 # 10) * p) <= 19 # 2000)%Q
    /\ (Qabs (hi - (11 # 10) * p) <= 21 # 2000)%Q.

(** What every variant returns for the raw model output [x]. *)
Definition formats (x p : Q) (ci : list Q) : Prop :=
  p = Numeric.round2 x
  /\ ci = [Numeric.round2 (x * (9 # 10))%Q; Numeric.round2 (x * (11 # 10))%Q]
  /\ band_within_rounding p ci
  /\ (0 <= x -> 0 <= p)%Q.


(** The sample input of [train_perfect_ai_model.py]. *)
Definition sample_input : Data.raw_input :=
  {| Data.crop := "Rice";
     Data.state := "Punjab";
     Data.soil_type := "Alluvial";
     Data.month := 10;
     Data.temperature := 285 # 10;
     Data.rainfall := 120;
     Data.humidity := 65;
     Data.prev_year_price := 2000;
     Data.date := None;
     Data.price := None;
     Data.other_columns := [] |}.

(** A model answering 7.5 percent above the previous year's price. *)
Definition growth_model : Predictor.model :=
  fun f => inr (Data.prev_year_price (Data.raw f) * (43 # 40))%Q.

(** What [predict] returns on the sample input with that model. *)
Definition sample_result : Data.prediction_result :=
  {| Data.predicted_price := 2150;
     Data.confidence_interval := [1935; 2365]%Q;
     Data.currency := "INR";
     Data.metadata := {| Data.model_type := "Ensemble";
                         Data.features_used := 23;
                         Data.prediction_timestamp := "2024-01-01T00:00:00" |};
     Data.insights := None;
     Data.recommendations := None |}.

(** The month-to-season table of the specification. *)
Definition season_as_specified (lookup : Z -> option string) : Prop :=
  forall m : Z,
    (m = 12 \/ m = 1 \/ m = 2 -> lookup m = Some "Winter")
    /\ (m = 3 \/ m = 4 \/ m = 5 -> lookup m = Some "Spring")
    /\ (m = 6 \/ m = 7 \/ m = 8 -> lookup m = Some "Summer")
    /\ (m = 9 \/ m = 10 \/ m = 11 -> lookup m = Some "Autumn")
    /\ (1 <= m <= 12 -> is_Some (lookup m)).

(** The fixed-table lookups at prediction time: a key the table has
    yields its entry, any other key the neutral default. *)
Definition lookup_with_default {V} (table : gmap string V) (default : V)
    (f : string -> V) : Prop :=
  forall k : string,
    (table !! k = None -> f k = default)
    /\ (forall v, table !! k = Some v -> f k = v).

(** An input none of whose categorical values is in a table. *)
Definition unknown_input : Data.raw_input :=
  {| Data.crop := "Quinoa";
     Data.state := "Goa";
     Data.soil_type := "Sandy";
     Data.month := 10;
     Data.temperature := 285 # 10;
     Data.rainfall := 120;
     Data.humidity := 65;
     Data.prev_year_price := 2000;
     Data.date := Some Data.NoDate;
     Data.price := None;
     Data.other_columns := ["area"] |}.

(** The call raised [HTTPException] with status 503. *)
Definition service_unavailable {A} (r : Exc A) : Prop :=
  exists detail, r = inl (HTTPException 503 detail).

(** A request body with the given previous-year price and [date] cell. *)
Definition request_with (prev : Q) (d : Data.date_cell) : MainPerfect.PredictionInput :=
  {| MainPerfect.crop := "Rice";
     MainPerfect.state := "Punjab";
     MainPerfect.soil_type := "Alluvial";
     MainPerfect.month := 10;
     MainPerfect.temperature := 285 # 10;
     MainPerfect.rainfall := 120;
     MainPerfect.humidity := 65;
     MainPerfect.prev_year_price := prev;
     MainPerfect.area := None;
     MainPerfect.date := d |}.

Definition sample_request : MainPerfect.PredictionInput :=
  request_with 2000 Data.NoDate.

Definition sample_user : MainPerfect.User :=
  {| MainPerfect.id := 1;
     MainPerfect.username := "farmer";
     MainPerfect.email := "farmer@example.org" |}.

Definition empty_db : MainPerfect.connection :=
  {| MainPerfect.committed := []; MainPerfect.pending := [] |}.

(** A model answering the previous year's price. *)
Definition echo_model : Predictor.model :=
  fun f => inr (Data.prev_year_price (Data.raw f)).

(** The prediction function of the service, for a loaded model. *)
Definition perfect_predict_fn (m : Predictor.model) : MainPerfect.predict_fn :=
  Predictor.predict (Some m) "2024-01-01T00:00:00".


(** The batch of the specification's example: items whose predicted
    prices are 1000, 2000 and 3000. *)
Definition batch_request : MainPerfect.BatchPredictionRequest :=
  {| MainPerfect.predictions :=
       [request_with 1000 Data.NoDate; request_with 2000 Data.NoDate;
        request_with 3000 Data.NoDate];
     MainPerfect.include_insights := true |}.

(** A splitter that honours the library contract: it takes the last
    [ceil(test_size * n)] rows as the test part.  With [stratify] it
    accepts the one labelling [example_labels], whose last two rows carry
    one label of each class, and raises on any other. *)
Definition example_labels : list string :=
  [ "Rice"; "Rice"; "Rice"; "Rice"; "Wheat"; "Wheat"; "Wheat"; "Wheat";
    "Rice"; "Wheat" ].

Definition tail_split : Sklearn.train_test_split_t :=
  fun Row p X y =>
    let n := length X in
    let c := Qceiling (Sklearn.test_size p * inject_Z (Z.of_nat n)) in
    let k := Z.to_nat c in
    let i_train := seq 0 (n - k) in
    let i_test := seq (n - k) k in
    let split :=
      inr (Sklearn.select i_train X, Sklearn.select i_test X,
           Sklearn.select i_train y, Sklearn.select i_test y) in
    if (0 <=? c)%Z && (k <=? n)%nat then
      match Sklearn.stratify p with
      | None => split
      | Some labels =>
          if bool_decide (labels = example_labels) && (n =? 10)%nat && (k =? 2)%nat
          then split
          else inl (ValueError "unsupported stratification")
      end
    else inl (ValueError "test_size out of range").

Definition example_observation (c : string) (p : Q) : Trainer.observation :=
  {| Trainer.date :=
       Data.GoodDate {| Data.dayofyear := 15; Data.dt_quarter := 1;
                        Data.weekday := 6 |};
     Trainer.year := 2023;
     Trainer.month := 1;
     Trainer.state := "Punjab";
     Trainer.crop := c;
     Trainer.soil_type := "Alluvial";
     Trainer.temperature := 20;
     Trainer.rainfall := 50;
     Trainer.humidity := 60;
     Trainer.prev_year_price := 2000;
     Trainer.price := p |}.

Definition example_csv : list Trainer.observation :=
  zip_with example_observation example_labels
    [2100; 2150; 2200; 2250; 1800; 1850; 1900; 1950; 2300; 2000]%Q.

Definition example_read_csv (path : string) : Exc (list Trainer.observation) :=
  if String.eqb path "data/processed/crop_prices.csv" then inr example_csv
  else inl (FileNotFoundError path).

(** Group aggregates left blank: every cell is [NaN]. *)
Definition example_groupby_transform (keys : list string) (agg : string)
    (df : list Trainer.observation) : list (option Q) :=
  map (fun _ => None) df.

Definition example_table : list Trainer.train_features :=
  match Trainer.load_and_prepare_data example_read_csv example_groupby_transform
          "data/processed/crop_prices.csv" with
  | inr df => df
  | inl _ => []
  end.



(** Stand-ins for the library in a run of the trainer: a fitted pipeline
    is its candidate's name and predicts the length of that name for every
    row; the R2 score is [1 - v / 100] for a first prediction [v]; a
    fitted ensemble is the list of its members' names. *)
Definition example_pipeline_fit (name : string) (k : nat)
    (X : list Trainer.train_features) (y : list Q) : Exc string :=
  inr name.

Definition example_pipeline_predict (p : string)
    (X : list Trainer.train_features) : Exc (list Q) :=
  inr (map (fun _ => inject_Z (Z.of_nat (String.length p))) X).

Definition example_voting_fit (estimators : list (string * string))
    (X : list Trainer.train_features) (y : list Q) : Exc (list string) :=
  inr (map fst estimators).

Definition example_voting_predict (e : list string)
    (X : list Trainer.train_features) : Exc (list Q) :=
  inr (map (fun _ => 0%Q) X).

Definition example_error (y_true y_pred : list Q) : Q := 0%Q.

Definition example_r2_score (y_true y_pred : list Q) : Q :=
  match y_pred with
  | [] => 0%Q
  | v :: _ => (1 - v / 100)%Q
  end.

Definition example_train (fs : gmap string (@Trainer.file string (list string))) :=
  Trainer.train example_read_csv example_groupby_transform tail_split
    example_pipeline_fit example_pipeline_predict example_voting_fit
    example_voting_predict example_error example_r2_score example_error
    "2024-01-01T00:00:00" "data/processed/crop_prices.csv" Trainer.init fs.

(** The artifact a training run returns, if it returns. *)
Definition served_artifact {P E F : Type}
    (r : Exc (@Trainer.artifact P E * @Trainer.predictor P E * F))
    : option (@Trainer.artifact P E) :=
  match r with
  | inr (a, _, _) => Some a
  | inl _ => None
  end.

(** * Further embedding and vocabulary *)

(** The band [ci] is a pair that brackets a positive price [p], and is
    reversed around a negative one. *)
Definition brackets (p : Q) (ci : list Q) : Prop :=
  exists lo hi,
    ci = [lo; hi]
    /\ ((0 < p)%Q -> (lo <= p)%Q /\ (p <= hi)%Q)
    /\ ((p < 0)%Q -> (hi <= p)%Q /\ (p <= lo)%Q).

(** The three actions every market insight starts with. *)
Definition base_actions : list string :=
  [ "Monitor weather forecasts closely";
    "Consider staggered selling strategy";
    "Check local market prices regularly" ].

(** The messages of [generate_recommendations]. *)
Definition msg_high_price : string :=
  "High price predicted - consider selling soon".
Definition msg_low_price : string :=
  "Low price predicted - consider holding or finding better markets".
Definition msg_winter : string :=
  "Winter season - prices typically stable".
Definition msg_monsoon : string :=
  "Monsoon season - monitor for weather-related price fluctuations".

(** What [pd.to_datetime] makes of a cell it accepts: [NaT] for [None]. *)
Definition date_parts_of (c : Data.date_cell) : option Data.date_parts :=
  match c with
  | Data.GoodDate d => Some d
  | _ => None
  end.

(** The temporal columns read off a parsed date ([NaN], [NaN] and
    [False] for [NaT]). *)
Definition temporal_of_date (d : option Data.date_parts)
    : option Z * option Z * bool :=
  (Data.dayofyear <$> d, Data.dt_quarter <$> d,
   match d with
   | Some d => bool_decide (5 <= Data.weekday d)
   | None => false
   end).

(** The prediction input [i] carries the raw values of the training
    observation [o], its date included. *)
Definition same_raw (o : Trainer.observation) (i : Data.raw_input) : Prop :=
  Data.crop i = Trainer.crop o
  /\ Data.state i = Trainer.state o
  /\ Data.soil_type i = Trainer.soil_type o
  /\ Data.month i = Trainer.month o
  /\ Data.temperature i = Trainer.temperature o
  /\ Data.rainfall i = Trainer.rainfall o
  /\ Data.humidity i = Trainer.humidity o
  /\ Data.prev_year_price i = Trainer.prev_year_price o
  /\ Data.date i = Some (Trainer.date o).

(** The prediction input built from a training observation, without the
    [price] column. *)
Definition input_of_observation (o : Trainer.observation) : Data.raw_input :=
  {| Data.crop := Trainer.crop o;
     Data.state := Trainer.state o;
     Data.soil_type := Trainer.soil_type o;
     Data.month := Trainer.month o;
     Data.temperature := Trainer.temperature o;
     Data.rainfall := Trainer.rainfall o;
     Data.humidity := Trainer.humidity o;
     Data.prev_year_price := Trainer.prev_year_price o;
     Data.date := Some (Trainer.date o);
     Data.price := None;
     Data.other_columns := ["year"] |}.

(** ** [train_perfect_ai_model.py]: loading the persisted model *)

Module Serving.

Import Sklearn Trainer.

(** The path [save_models] writes and [load_model] reads by default. *)
Definition model_path : string := "models/perfect_crop_price_model.pkl".



Section WithLibraries.

Context {Pipeline Ensemble : Type}.

(** [joblib.load(path)] on the files under [models/]. *)
Variable joblib_load :
  gmap string (@file Pipeline Ensemble) -> string ->
  Exc (option (@artifact Pipeline Ensemble)).

Variable read_csv : string -> Exc (list observation).
Variable groupby_transform :
  list string -> string -> list observation -> list (option Q).
Variable train_test_split : train_test_split_t.
Variable pipeline_fit :
  string -> nat -> list train_features -> list Q -> Exc Pipeline.
Variable pipeline_predict : Pipeline -> list train_features -> Exc (list Q).
Variable voting_fit :
  list (string * Pipeline) -> list train_features -> list Q -> Exc Ensemble.
Variable voting_predict : Ensemble -> list train_features -> Exc (list Q).
Variable mean_absolute_error r2_score root_mean_squared_error :
  list Q -> list Q -> Q.

(** [load_model(self, model_path)] *)
Definition load_model (fs : gmap string (@file Pipeline Ensemble))
    (path : string) (self : @predictor Pipeline Ensemble)
    : Exc (@predictor Pipeline Ensemble) :=
  (let! loaded := joblib_load fs path in
   ret {| models := models self;
          best_model := loaded;
          model_performance := model_performance self |})%exc.

(** [create_prediction_pipeline]: the predictor whose [predict] is
    returned, and the files under [models/] afterwards.  Only
    [FileNotFoundError] is caught. *)
Definition create_prediction_pipeline (now : string)
    (fs : gmap string (@file Pipeline Ensemble))
    : Exc (@predictor Pipeline Ensemble * gmap string (@file Pipeline Ensemble)) :=
  let predictor := init in
  match load_model fs model_path predictor with
  | inr predictor => ret (predictor, fs)
  | inl (FileNotFoundError _) =>
      (let! trained :=
         train read_csv groupby_transform train_test_split pipeline_fit
           pipeline_predict voting_fit voting_predict mean_absolute_error
           r2_score root_mean_squared_error now
           "data/processed/crop_prices.csv" predictor fs in
       let '(_, predictor, fs) := trained in
       ret (predictor, fs))%exc
  | inl e => raise e
  end.

(** What [joblib.load] is relied on for: a missing file raises
    [FileNotFoundError], and a dumped [best_model] loads back. *)
Definition joblib_contract : Prop :=
  forall fs path,
    (fs !! path = None -> exists msg, joblib_load fs path = inl (FileNotFoundError msg))
    /\ (forall a, fs !! path = Some (PickledBestModel a) -> joblib_load fs path = inr a).

End WithLibraries.

End Serving.

(** A [joblib.load] for the example run. *)
Definition example_joblib_load
    (fs : gmap string (@Trainer.file string (list string))) (path : string)
    : Exc (option (@Trainer.artifact string (list string))) :=
  match fs !! path with
  | None => inl (FileNotFoundError path)
  | Some (Trainer.PickledBestModel a) => inr a
  | Some (Trainer.PickledPipeline p) => inr (Some (Trainer.SinglePipeline p))
  | Some (Trainer.MetadataJson _ _ _) => inl (ValueError "not a pickle")
  end.

(** ** [app/main_perfect.py]: accounts and tokens *)

Module Auth.

Definition SECRET_KEY : string := "harvest-link-chain-secret-key-2024".
Definition ACCESS_TOKEN_EXPIRE_MINUTES : Z := 30.

(** What a handler of this part can end in besides its result: an
    [HTTPException], or an error that no handler catches. *)
Inductive error : Type :=
| HTTP (status_code : Z) (detail : string)
| IntegrityError (msg : string)
| TypeError (msg : string).

(** The pydantic models [User], [UserInDB(User)] and [UserCreate(User)];
    a subclass holds its base. *)
Record User : Type := {
  username : string;
  email : string;
  full_name : option string;
  role : option string;
  is_active : option bool
}.

Record UserInDB : Type := {
  UserInDB_User :> User;
  hashed_password : string;
  id : Z;
  created_at : string
}.

Record UserCreate : Type := {
  UserCreate_User :> User;
  password : string
}.

(** The payload of a token: the keys [sub] and [exp], the latter in
    seconds. *)
Record claims : Type := {
  sub : option string;
  exp : option Z
}.

(** *** The [users] table

    The rows in rowid order, each already read into a [UserInDB].
    [username] and [email] are [UNIQUE]; [id] is [AUTOINCREMENT], and no
    statement of the service deletes a row, so the next id is one above
    the largest present. *)
Definition users_table : Type := list UserInDB.

Definition next_id (db : users_table) : Z :=
  1 + fold_right Z.max 0 (map id db).

(** [SELECT * FROM users WHERE username = ?], [fetchone()] *)
Definition select_by_username (name : string) (db : users_table)
    : option UserInDB :=
  find (fun r : UserInDB => String.eqb (username r) name) db.

(** [SELECT * FROM users WHERE username = ? OR email = ?], [fetchone()] *)
Definition select_by_username_or_email (name mail : string) (db : users_table)
    : option UserInDB :=
  find (fun r : UserInDB =>
          String.eqb (username r) name || String.eqb (email r) mail) db.

(** [INSERT INTO users (username, email, hashed_password, full_name, role)]
    followed by [db.commit()]: [is_active] and [created_at] take their
    defaults; a taken [username] or [email] violates the constraint. *)
Definition insert_user (now name mail hashed : string)
    (full role_ : option string) (db : users_table) : error + users_table :=
  if existsb (fun r : UserInDB => String.eqb (username r) name) db then
    inl (IntegrityError "UNIQUE constraint failed: users.username")
  else if existsb (fun r : UserInDB => String.eqb (email r) mail) db then
    inl (IntegrityError "UNIQUE constraint failed: users.email")
  else
    inr (db ++ [ {| UserInDB_User :=
                      {| username := name;
                         email := mail;
                         full_name := full;
                         role := role_;
                         is_active := Some true |};
                    hashed_password := hashed;
                    id := next_id db;
                    created_at := now |} ])%list.

(** The dict [register_user] returns: the columns [id], [username],
    [email], [full_name], [role], [is_active], [created_at] of a row. *)
Record registered : Type := {
  registered_id : Z;
  registered_User :> User;
  registered_created_at : string
}.

Definition columns_of (r : UserInDB) : registered :=
  {| registered_id := id r;
     registered_User := UserInDB_User r;
     registered_created_at := created_at r |}.

Record Token (token : Type) : Type := {
  access_token : token;
  token_type : string
}.

Arguments access_token {token} _.
Arguments token_type {token} _.

Section WithLibraries.

(** An encoded token: a [str] the service only passes along. *)
Context {token : Type}.

(** [pwd_context.hash], with the salt it draws, and [pwd_context.verify]
    on a hash that [pwd_context.hash] produced. *)
Variable pwd_hash : string -> string -> string.
Variable pwd_verify : string -> string -> bool.

(** [jwt.encode(claims, key, algorithm=ALGORITHM)] and
    [jwt.decode(token, key, algorithms=[ALGORITHM])] at a given time;
    [None] is a [JWTError]. *)
Variable jwt_encode : claims -> string -> token.
Variable jwt_decode : Z -> token -> string -> option claims.

Definition verify_password (plain_password hashed : string) : bool :=
  pwd_verify plain_password hashed.

Definition get_password_hash (salt password_ : string) : string :=
  pwd_hash salt password_.

Definition get_user (name : string) (db : users_table) : option UserInDB :=
  select_by_username name db.

(** [authenticate_user]: the user, or [None] for Python's [False]. *)
Definition authenticate_user (name password_ : string) (db : users_table)
    : option UserInDB :=
  match get_user name db with
  | None => None
  | Some user =>
      if verify_password password_ (hashed_password user) then Some user
      else None
  end.

(** [create_access_token(data, expires_delta)]: a [timedelta] of zero is
    falsy, as is [None]. *)
Definition create_access_token (data : claims) (expires_delta : option Z)
    (utcnow : Z) : token :=
  let expire :=
    match expires_delta with
    | Some delta => if Z.eqb delta 0 then utcnow + 15 * 60 else utcnow + delta
    | None => utcnow + 15 * 60
    end in
  jwt_encode {| sub := sub data; exp := Some expire |} SECRET_KEY.

Definition credentials_exception : error :=
  HTTP 401 "Could not validate credentials".

Definition get_current_user (utcnow : Z) (tok : token) (db : users_table)
    : error + UserInDB :=
  match jwt_decode utcnow tok SECRET_KEY with
  | None => inl credentials_exception
  | Some payload =>
      match sub payload with
      | None => inl credentials_exception
      | Some name =>
          match get_user name db with
          | None => inl credentials_exception
          | Some user => inr user
          end
      end
  end.

(** [POST /token] *)
Definition login_for_access_token (utcnow : Z) (form_username form_password : string)
    (db : users_table) : error + Token token :=
  match authenticate_user form_username form_password db with
  | None => inl (HTTP 401 "Incorrect username or password")
  | Some user =>
      let access_token_expires := ACCESS_TOKEN_EXPIRE_MINUTES * 60 in
      inr {| access_token :=
               create_access_token {| sub := Some (username user); exp := None |}
                 (Some access_token_expires) utcnow;
             token_type := "bearer" |}
  end.

(** [POST /register]: the answer and the table afterwards.  [salt] is
    what the hash draws, [now] the [CURRENT_TIMESTAMP] of the insert. *)
Definition register_user (salt now : string) (user : UserCreate)
    (db : users_table) : (error + registered) * users_table :=
  match select_by_username_or_email (username user) (email user) db with
  | Some _ => (inl (HTTP 400 "Username or email already registered"), db)
  | None =>
      let hashed := get_password_hash salt (password user) in
      match insert_user now (username user) (email user) hashed
              (full_name user) (role user) db with
      | inl e => (inl e, db)
      | inr db' =>
          match select_by_username (username user) db' with
          | None => (inl (TypeError "zip argument #2 must support iteration"), db')
          | Some user_data => (inr (columns_of user_data), db')
          end
      end
  end.

(** What the libraries are relied on for: a password verifies against
    its own hash, and a token decodes to its claims until it expires. *)
Definition pwd_contract : Prop :=
  forall salt password_, pwd_verify password_ (pwd_hash salt password_) = true.

Definition jwt_contract : Prop :=
  forall payload expire key utcnow,
    exp payload = Some expire ->
    utcnow <= expire ->
    jwt_decode utcnow (jwt_encode payload key) key = Some payload.

End WithLibraries.

(** The row [register_user] inserts for a request. *)
Definition new_row (pwd_hash : string -> string -> string) (salt now : string)
    (user : UserCreate) (db : users_table) : UserInDB :=
  {| UserInDB_User :=
       {| username := username user;
          email := email user;
          full_name := full_name user;
          role := role user;
          is_active := Some true |};
     hashed_password := pwd_hash salt (password user);
     id := next_id db;
     created_at := now |}.

(** A row with its [is_active] flag replaced. *)
Definition with_is_active (flag : UserInDB -> option bool) (r : UserInDB)
    : UserInDB :=
  {| UserInDB_User :=
       {| username := username r;
          email := email r;
          full_name := full_name r;
          role := role r;
          is_active := flag r |};
     hashed_password := hashed_password r;
     id := id r;
     created_at := created_at r |}.

(** The table's constraints. *)
Definition well_formed (db : users_table) : Prop :=
  NoDup (map (fun r : UserInDB => username r) db)
  /\ NoDup (map (fun r : UserInDB => email r) db)
  /\ NoDup (map id db).

End Auth.

(** ** [app/main_perfect.py]: price alerts *)

Module Alerts.

Record PriceAlertCreate : Type := {
  crop : string;
  state : option string;
  target_price : Q;
  alert_type : string
}.

(** A row of [price_alerts]. *)
Record price_alert : Type := {
  id : Z;
  user_id : Z;
  price_alert_columns :> PriceAlertCreate;
  current_price : option Q;
  is_active : bool;
  created_at : string;
  triggered_at : option string
}.

(** An entry of the list [get_price_alerts] returns: the row without
    its [user_id]. *)
Record alert : Type := {
  alert_id : Z;
  alert_columns :> PriceAlertCreate;
  alert_current_price : option Q;
  alert_is_active : bool;
  alert_created_at : string;
  alert_triggered_at : option string
}.

Definition alert_of (row : price_alert) : alert :=
  {| alert_id := id row;
     alert_columns := price_alert_columns row;
     alert_current_price := current_price row;
     alert_is_active := is_active row;
     alert_created_at := created_at row;
     alert_triggered_at := triggered_at row |}.

Definition price_alerts_table : Type := list price_alert.

Definition next_id (db : price_alerts_table) : Z :=
  1 + fold_right Z.max 0 (map id db).

(** [POST /alerts]: the table after the insert and the commit. *)
Definition create_price_alert (now : string) (a : PriceAlertCreate)
    (current_user : Auth.UserInDB) (db : price_alerts_table)
    : string * price_alerts_table :=
  ("Price alert created successfully",
   (db ++ [ {| id := next_id db;
               user_id := Auth.id current_user;
               price_alert_columns := a;
               current_price := None;
               is_active := true;
               created_at := now;
               triggered_at := None |} ])%list).

Section WithOrder.

(** [ORDER BY created_at DESC] on the selected rows; rows of one
    timestamp come in an order SQLite does not fix. *)
Variable order_by_created_at_desc : list price_alert -> list price_alert.

(** The [WHERE] clause of [get_price_alerts]. *)
Definition selected (active_only : bool) (current_user : Auth.UserInDB)
    (row : price_alert) : bool :=
  Z.eqb (user_id row) (Auth.id current_user)
  && (if active_only then is_active row else true).

(** [GET /alerts] *)
Definition get_price_alerts (active_only : bool) (current_user : Auth.UserInDB)
    (db : price_alerts_table) : list alert :=
  map alert_of
    (order_by_created_at_desc
       (List.filter (selected active_only current_user) db)).

Definition order_contract : Prop :=
  forall rows, Permutation (order_by_created_at_desc rows) rows.

End WithOrder.

End Alerts.

(** Stand-ins for passlib and jose in the examples: a hash that is
    the password itself, and a token that is its claims and its key. *)
Definition example_pwd_hash (salt password_ : string) : string := password_.

Definition example_pwd_verify (password_ hashed : string) : bool :=
  String.eqb password_ hashed.

Definition example_jwt_encode (payload : Auth.claims) (key : string)
    : Auth.claims * string :=
  (payload, key).

Definition example_jwt_decode (utcnow : Z) (tok : Auth.claims * string)
    (key : string) : option Auth.claims :=
  if String.eqb (snd tok) key then
    match Auth.exp (fst tok) with
    | Some expire => if Z.leb utcnow expire then Some (fst tok) else None
    | None => Some (fst tok)
    end
  else None.

Definition example_user : Auth.UserCreate :=
  {| Auth.UserCreate_User :=
       {| Auth.username := "asha";
          Auth.email := "asha@example.org";
          Auth.full_name := Some "Asha Rao";
          Auth.role := Some "farmer";
          Auth.is_active := Some false |};
     Auth.password := "s3cret" |}.

Definition example_other_user : Auth.UserCreate :=
  {| Auth.UserCreate_User :=
       {| Auth.username := "ravi";
          Auth.email := "ravi@example.org";
          Auth.full_name := None;
          Auth.role := None;
          Auth.is_active := None |};
     Auth.password := "pw" |}.

Definition example_users : Auth.users_table :=
  snd (Auth.register_user example_pwd_hash "salt" "2024-01-01 00:00:00"
         example_other_user []).

Definition example_account : Auth.UserInDB :=
  Auth.new_row example_pwd_hash "salt" "2024-01-01 00:00:00" example_other_user [].

Definition example_alert : Alerts.PriceAlertCreate :=
  {| Alerts.crop := "Rice";
     Alerts.state := Some "Punjab";
     Alerts.target_price := 2500 # 1;
     Alerts.alert_type := "price_reach" |}.

(** * Properties *)

Local Open Scope list_scope.

(** ** Rounding *)

Section Rounding.

Import Numeric.
Local Open Scope Q_scope.

Lemma inject_Z_succ (z : Z) : inject_Z (z + 1) == inject_Z z + 1.
Proof. rewrite inject_Z_plus. reflexivity. Qed.

(** The nearest integer is within a half of its argument. *)
Lemma round_half_even_error (x : Q) :
  Qabs (inject_Z (round_half_even x) - x) <= 1 # 2.
Proof.
  unfold round_half_even.
  pose proof (Qfloor_le x) as Hlo.
  pose proof (Qlt_floor x) as Hhi.
  rewrite inject_Z_succ in Hhi.
  destruct (Qcompare (x - inject_Z (Qfloor x)) (1 # 2)) eqn:Hc.
  - apply Qeq_alt in Hc.
    destruct (Z.even (Qfloor x)); [| rewrite inject_Z_succ];
      apply Qabs_case; intros; lra.
  - apply Qlt_alt in Hc. apply Qabs_case; intros; lra.
  - apply Qgt_alt in Hc. rewrite inject_Z_succ. apply Qabs_case; intros; lra.
Qed.

Lemma round_half_even_nonneg (x : Q) : 0 <= x -> (0 <= round_half_even x)%Z.
Proof.
  intros Hx. unfold round_half_even.
  assert (0 <= Qfloor x)%Z as Hf.
  { change 0%Z with (Qfloor 0). apply Qfloor_resp_le, Hx. }
  destruct (Qcompare _ _); [destruct (Z.even _) | |]; lia.
Qed.

Lemma round_half_even_comp (x y : Q) :
  x == y -> round_half_even x = round_half_even y.
Proof.
  intros Hxy. unfold round_half_even.
  rewrite (Qfloor_comp x y Hxy).
  assert (x - inject_Z (Qfloor y) == y - inject_Z (Qfloor y)) as Hr
    by (rewrite Hxy; reflexivity).
  rewrite (Qcompare_comp _ _ Hr _ _ (Qeq_refl (1 # 2))). reflexivity.
Qed.


Lemma round2_spec (x : Q) : round2 x == inject_Z (round_half_even (x * 100)) / 100.
Proof.
  unfold round2. rewrite Qred_correct. rewrite Qmake_Qdiv. reflexivity.
Qed.

(** [round(x, 2)] is within 0.005 of [x]. *)
Lemma round2_error (x : Q) : Qabs (round2 x - x) <= 1 # 200.
Proof.
  pose proof (round_half_even_error (x * 100)) as H.
  rewrite round2_spec.
  set (n := inject_Z (round_half_even (x * 100))) in *.
  assert (n / 100 == n * (1 # 100)) as -> by (field; discriminate).
  revert H. apply Qabs_case; intros H0 H; apply Qabs_case; intros; lra.
Qed.

Lemma round2_nonneg (x : Q) : 0 <= x -> 0 <= round2 x.
Proof.
  intros Hx. rewrite round2_spec.
  assert (0 <= x * 100) as Hx100 by lra.
  apply round_half_even_nonneg in Hx100.
  assert (0 <= inject_Z (round_half_even (x * 100))) as Hn.
  { change 0 with (inject_Z 0). rewrite <- Zle_Qle. exact Hx100. }
  set (n := inject_Z _) in *.
  assert (n / 100 == n * (1 # 100)) as -> by (field; discriminate). lra.
Qed.

Lemma round2_comp (x y : Q) : x == y -> round2 x = round2 y.
Proof.
  intros Hxy. unfold round2.
  rewrite (round_half_even_comp (x * 100) (y * 100)); [reflexivity |].
  rewrite Hxy. reflexivity.
Qed.


End Rounding.

(** ** The prediction result (C1) *)

Section PredictionResult.

Import Numeric.
Local Open Scope Q_scope.

Lemma formats_round2 (x : Q) :
  formats x (round2 x) (map round2 [x * (9 # 10); x * (11 # 10)]).
Proof.
  repeat split.
  - exists (round2 (x * (9 # 10))), (round2 (x * (11 # 10))).
    split; [reflexivity |].
    pose proof (round2_error x) as Hp.
    pose proof (round2_error (x * (9 # 10))) as Hlo.
    pose proof (round2_error (x * (11 # 10))) as Hhi.
    apply Qabs_Qle_condition in Hp, Hlo, Hhi.
    split; apply Qabs_Qle_condition; split; lra.
  - apply round2_nonneg.
Qed.

End PredictionResult.


(** What [predict] returns when it returns. *)
Lemma predict_returns m now i r :
  Predictor.predict (Some m) now i = inr r ->
  exists f x,
    FeatureEngineering._apply_feature_engineering i = inr f /\ m f = inr x
    /\ formats x (Data.predicted_price r) (Data.confidence_interval r).
Proof.
  intros H. unfold Predictor.predict, bind in H.
  destruct (FeatureEngineering._apply_feature_engineering i) as [e | f]; [discriminate |].
  destruct (m f) as [e | x] eqn:Hm; [discriminate |].
  exists f, x. inversion H; subst; clear H. simpl.
  split; [reflexivity | split; [exact Hm |]]. apply formats_round2.
Qed.



(** ** Feature engineering (C6, C7) *)

Ltac season_cases :=
  intros m; repeat split;
  try (intros [-> | [-> | ->]]; vm_compute; reflexivity);
  intros Hm;
  assert (m = 1 \/ m = 2 \/ m = 3 \/ m = 4 \/ m = 5 \/ m = 6 \/ m = 7
          \/ m = 8 \/ m = 9 \/ m = 10 \/ m = 11 \/ m = 12) as Hcases by lia;
  repeat (destruct Hcases as [-> | Hcases]); try subst m;
  eexists; vm_compute; reflexivity.

Lemma season_of_month_specified :
  season_as_specified FeatureEngineering.season_of_month.
Proof. season_cases. Qed.

Lemma trainer_season_specified :
  season_as_specified (fun m => Trainer.season_map !! m).
Proof. season_cases. Qed.

Lemma simple_season_specified :
  season_as_specified (fun m => MainSimple.season_map !! m).
Proof. season_cases. Qed.

Lemma apply_feature_engineering_season i f :
  FeatureEngineering._apply_feature_engineering i = inr f ->
  Data.season f = FeatureEngineering.season_of_month (Data.month i).
Proof.
  unfold FeatureEngineering._apply_feature_engineering, bind.
  destruct (FeatureEngineering.temporal i); [discriminate |].
  intros H. inversion H. reflexivity.
Qed.

Lemma load_and_prepare_data_season read_csv groupby_transform file_path df :
  Trainer.load_and_prepare_data read_csv groupby_transform file_path = inr df ->
  forall r, r ∈ df ->
    Trainer.season r = Trainer.season_map !! Trainer.month (Trainer.obs r).
Proof.
  unfold Trainer.load_and_prepare_data, bind.
  destruct (read_csv file_path) as [e | csv]; [discriminate |].
  match goal with |- context [match ?d with inl _ => _ | inr _ => _ end = _] =>
    destruct d as [e | dates] end; [discriminate |].
  intros H r Hr. inversion H; subst; clear H.
  apply elem_of_lookup_imap in Hr as (i & o & -> & _). reflexivity.
Qed.

(** C6: the season derived from the month is, in every copy of the
    table (training time, prediction time, [main_simple.py]), Winter for
    12, 1, 2, Spring for 3, 4, 5, Summer for 6, 7, 8 and Autumn for 9,
    10, 11, hence defined on all of 1..12; and the [season] column of the
    engineered rows is that lookup of the row's month. *)
Theorem season_exhaustive :
  season_as_specified FeatureEngineering.season_of_month
  /\ season_as_specified (fun m => Trainer.season_map !! m)
  /\ season_as_specified (fun m => MainSimple.season_map !! m)
  /\ (forall i f,
        FeatureEngineering._apply_feature_engineering i = inr f ->
        Data.season f = FeatureEngineering.season_of_month (Data.month i))
  /\ (forall read_csv groupby_transform file_path df r,
        Trainer.load_and_prepare_data read_csv groupby_transform file_path = inr df ->
        r ∈ df ->
        Trainer.season r = Trainer.season_map !! Trainer.month (Trainer.obs r))
  /\ (forall i,
        MainSimple.season (MainSimple.feature_engineering i)
        = MainSimple.season_map !! MainSimple.month i).
Proof.
  split; [exact season_of_month_specified |].
  split; [exact trainer_season_specified |].
  split; [exact simple_season_specified |].
  split; [exact apply_feature_engineering_season |].
  split; [| reflexivity].
  intros read_csv gt file_path df r H Hr.
  exact (load_and_prepare_data_season read_csv gt file_path df H r Hr).
Qed.

Lemma season_exhaustive_witness :
  FeatureEngineering.season_of_month 12 = Some "Winter"
  /\ FeatureEngineering.season_of_month 4 = Some "Spring"
  /\ Trainer.season_map !! 7 = Some "Summer"
  /\ MainSimple.season_map !! 10 = Some "Autumn"
  /\ is_Some (FeatureEngineering.season_of_month 1).
Proof.
  destruct season_exhaustive as (Hp & Ht & Hs & _).
  split; [apply (Hp 12); left; reflexivity |].
  split; [apply (Hp 4); right; left; reflexivity |].
  split; [apply (Ht 7); right; left; reflexivity |].
  split; [apply (Hs 10); right; left; reflexivity |].
  apply (Hp 1). lia.
Defined.

Lemma fillna_lookup {V} (table : gmap string V) (d : V) :
  lookup_with_default table d (fun k => FeatureEngineering.fillna d (table !! k)).
Proof.
  intros k. split.
  - intros ->. reflexivity.
  - intros v ->. reflexivity.
Qed.

(** Only the date parser raises in [_apply_feature_engineering]. *)
Lemma apply_feature_engineering_returns i :
  (forall s, Data.date i <> Some (Data.BadDate s)) ->
  exists f, FeatureEngineering._apply_feature_engineering i = inr f.
Proof.
  intros Hdate.
  unfold FeatureEngineering._apply_feature_engineering, FeatureEngineering.temporal, bind.
  destruct (Data.date i) as [[| s |] |]; try (eexists; reflexivity).
  exfalso. exact (Hdate s eq_refl).
Qed.

(** C7: at prediction time a crop that [crop_category] lacks maps to
    "Other", a state that [state_economic_factor] lacks and a soil type
    that [soil_productivity] lacks map to 1.0, known keys map to their
    entries; the three lookups are total, and on every input whose
    [date] cell the date parser accepts, feature engineering returns a
    row carrying exactly these values. *)
Theorem categorical_lookups_total :
  lookup_with_default FeatureEngineering.crop_category_map "Other"
    FeatureEngineering.crop_category_of
  /\ lookup_with_default FeatureEngineering.state_economic_factors (1 # 1)%Q
       FeatureEngineering.state_economic_factor_of
  /\ lookup_with_default FeatureEngineering.soil_productivity_map (1 # 1)%Q
       FeatureEngineering.soil_productivity_of
  /\ (forall i,
        (forall s, Data.date i <> Some (Data.BadDate s)) ->
        exists f,
          FeatureEngineering._apply_feature_engineering i = inr f
          /\ Data.crop_category f
             = FeatureEngineering.crop_category_of (Data.crop i)
          /\ Data.state_economic_factor f
             = FeatureEngineering.state_economic_factor_of (Data.state i)
          /\ Data.soil_productivity f
             = FeatureEngineering.soil_productivity_of (Data.soil_type i)).
Proof.
  split; [apply fillna_lookup |].
  split; [apply fillna_lookup |].
  split; [apply fillna_lookup |].
  intros i Hdate.
  destruct (apply_feature_engineering_returns i Hdate) as [f Hf].
  exists f. split; [exact Hf |].
  unfold FeatureEngineering._apply_feature_engineering, bind in Hf.
  destruct (FeatureEngineering.temporal i); [discriminate |].
  inversion Hf. repeat split.
Qed.

Lemma categorical_lookups_total_witness :
  FeatureEngineering.crop_category_of "Quinoa" = "Other"
  /\ FeatureEngineering.state_economic_factor_of "Goa" = (1 # 1)%Q
  /\ FeatureEngineering.soil_productivity_of "Sandy" = (1 # 1)%Q
  /\ FeatureEngineering.crop_category_of "Rice" = "Cereal"
  /\ exists f,
       FeatureEngineering._apply_feature_engineering unknown_input = inr f
       /\ Data.crop_category f = FeatureEngineering.crop_category_of "Quinoa"
       /\ Data.state_economic_factor f
          = FeatureEngineering.state_economic_factor_of "Goa"
       /\ Data.soil_productivity f
          = FeatureEngineering.soil_productivity_of "Sandy".
Proof.
  destruct categorical_lookups_total as (Hc & Hs & Hp & Hrow).
  split; [apply (proj1 (Hc "Quinoa")); vm_compute; reflexivity |].
  split; [apply (proj1 (Hs "Goa")); vm_compute; reflexivity |].
  split; [apply (proj1 (Hp "Sandy")); vm_compute; reflexivity |].
  split; [apply (proj2 (Hc "Rice")); vm_compute; reflexivity |].
  apply (Hrow unknown_input). intros s. vm_compute. discriminate.
Defined.

(** ** Model availability (C3, C10) *)

(** C3: when start-up left the module-level model (or prediction
    function) [None], every call of the [/predict] handler of [main.py],
    [main_simple.py] and [main_perfect.py] raises [HTTPException] with
    status 503, whatever the request body (and, in [main_perfect.py],
    whoever the resolved user); no prediction result is computed, and in
    [main_perfect.py] the connection is left as it was. *)
Theorem predict_unavailable_503 :
  (forall load_model load_encoders input_data,
      (Main.startup load_model load_encoders).1 = None ->
      service_unavailable
        (Main.predict_price (Main.startup load_model load_encoders).1
           (Main.startup load_model load_encoders).2 input_data))
  /\ (forall load_model now input_data,
        MainSimple.startup load_model = None ->
        service_unavailable
          (MainSimple.predict_crop_price (MainSimple.startup load_model) now input_data))
  /\ (forall create_prediction_pipeline train_new_model input_data current_user db,
        MainPerfect.startup create_prediction_pipeline train_new_model = None ->
        MainPerfect.predict_price
          (MainPerfect.startup create_prediction_pipeline train_new_model)
          input_data current_user db
        = (inl (HTTPException 503 "Prediction service not available"), db)).
Proof.
  split; [| split].
  - intros lm le i H. unfold Main.startup in *.
    destruct lm as [e | m]; [| destruct le as [e | enc]; [| discriminate]];
      eexists; reflexivity.
  - intros lm now i H. rewrite H. eexists. reflexivity.
  - intros cp tn i u db H. rewrite H. reflexivity.
Qed.

Lemma predict_unavailable_503_witness :
  MainPerfect.predict_price
    (MainPerfect.startup
       (inl (FileNotFoundError "models/perfect_crop_price_model.pkl"))
       (inl (FileNotFoundError "data/processed/crop_prices.csv")))
    sample_request sample_user empty_db
  = (inl (HTTPException 503 "Prediction service not available"), empty_db).
Proof.
  apply (proj2 (proj2 predict_unavailable_503)). reflexivity.
Defined.

(** C10: [GET /health] of [main_perfect.py] and of [main_simple.py]
    answers status "healthy" and the clock's timestamp whatever the model
    state; [model_loaded] is true exactly when the module-level
    prediction function (or model) is not [None]. *)
Theorem health_always_healthy :
  (forall PREDICT_FN utcnow,
      MainPerfect.status (MainPerfect.health_check PREDICT_FN utcnow) = "healthy"
      /\ MainPerfect.timestamp (MainPerfect.health_check PREDICT_FN utcnow) = utcnow
      /\ (MainPerfect.model_loaded (MainPerfect.health_check PREDICT_FN utcnow) = true
          <-> PREDICT_FN <> None))
  /\ (forall MODEL utcnow,
        MainSimple.status (MainSimple.health_check MODEL utcnow) = "healthy"
        /\ MainSimple.timestamp (MainSimple.health_check MODEL utcnow) = utcnow
        /\ (MainSimple.model_loaded (MainSimple.health_check MODEL utcnow) = true
            <-> MODEL <> None)).
Proof.
  split; intros [f |] utcnow; simpl; repeat split;
    intros; try discriminate; try congruence.
Qed.

(** ** Batch prediction (C5, C8, C9) *)

(** C9: with a prediction function loaded, [POST /predict/batch] on an
    empty [predictions] list raises [HTTPException] with status 400: the
    loop does nothing, the average divides by the zero length of the
    results, and the handler turns the [ZeroDivisionError] into the 400;
    the connection is untouched. *)
Theorem predict_batch_empty_400 :
  forall PREDICT_FN include_insights current_user db,
    MainPerfect.predict_batch (Some PREDICT_FN)
      {| MainPerfect.predictions := [];
         MainPerfect.include_insights := include_insights |}
      current_user db
    = (inl (HTTPException 400 "division by zero"), db)
    /\ MainPerfect.summarize 0 []
       = inl (ZeroDivisionError "division by zero").
Proof.
  intros f b u db. split; reflexivity.
Qed.

Section BatchLoop.

Import MainPerfect.

Variables (PREDICT_FN : predict_fn) (include_insights : bool) (current_user : User).

Lemma commit_execute_insert r db :
  commit (execute_insert r db)
  = {| committed := committed db ++ pending db ++ [r]; pending := [] |}.
Proof. unfold commit, execute_insert. simpl. reflexivity. Qed.

Lemma persist_all_committed rows db :
  rows <> [] ->
  committed (persist_all rows db) = committed db ++ pending db ++ rows
  /\ pending (persist_all rows db) = [].
Proof.
  revert db. induction rows as [| r rows IH]; intros db Hne; [congruence |].
  change (persist_all (r :: rows) db)
    with (persist_all rows (commit (execute_insert r db))).
  destruct rows as [| r' rows'].
  - simpl. split; reflexivity.
  - destruct (IH (commit (execute_insert r db))) as [Hc Hp]; [discriminate |].
    rewrite Hc, Hp. simpl. split; [| reflexivity].
    rewrite <- !app_assoc. reflexivity.
Qed.

Lemma batch_loop_step input_data rest acc db r :
  row_of PREDICT_FN include_insights current_user input_data = Some r ->
  batch_loop PREDICT_FN include_insights current_user (input_data :: rest) acc db
  = batch_loop PREDICT_FN include_insights current_user rest
      (acc ++ [prediction_result_json r]) (commit (execute_insert r db)).
Proof.
  unfold row_of. simpl. unfold hbind, lift, save_prediction, hbind,
    db_execute_insert, db_commit.
  destruct (PREDICT_FN (dict input_data)) as [e | result]; [discriminate |].
  intros H. inversion H; subst; clear H. reflexivity.
Qed.

Lemma batch_loop_raise input_data rest acc db e :
  PREDICT_FN (dict input_data) = inl e ->
  batch_loop PREDICT_FN include_insights current_user (input_data :: rest) acc db
  = (inl e, db).
Proof.
  intros H. simpl. unfold hbind, lift. rewrite H. reflexivity.
Qed.

(** Items that predict are appended and persisted one by one. *)
Lemma batch_loop_prefix pre rows :
  Forall2 (fun x r => row_of PREDICT_FN include_insights current_user x = Some r)
    pre rows ->
  forall rest acc db,
    batch_loop PREDICT_FN include_insights current_user (pre ++ rest) acc db
    = batch_loop PREDICT_FN include_insights current_user rest
        (acc ++ map prediction_result_json rows) (persist_all rows db).
Proof.
  induction 1 as [| x r pre rows Hx _ IH]; intros rest acc db.
  - simpl. rewrite app_nil_r. reflexivity.
  - simpl app. rewrite (batch_loop_step _ _ _ _ _ Hx), IH.
    simpl. rewrite <- app_assoc. reflexivity.
Qed.

(** A loop that completes has predicted and persisted every item. *)
Lemma batch_loop_returns items :
  forall acc db res db',
    batch_loop PREDICT_FN include_insights current_user items acc db = (inr res, db') ->
    exists rows,
      Forall2 (fun x r => row_of PREDICT_FN include_insights current_user x = Some r)
        items rows
      /\ res = acc ++ map prediction_result_json rows
      /\ db' = persist_all rows db.
Proof.
  induction items as [| x items IH]; intros acc db res db' H.
  - simpl in H. inversion H; subst. exists []. simpl.
    rewrite app_nil_r. repeat split. constructor.
  - destruct (row_of PREDICT_FN include_insights current_user x) as [r |] eqn:Hr.
    + rewrite (batch_loop_step _ _ _ _ _ Hr) in H.
      apply IH in H as (rows & Hall & -> & ->).
      exists (r :: rows). split; [constructor; assumption |].
      simpl. rewrite <- app_assoc. split; reflexivity.
    + unfold row_of in Hr.
      destruct (PREDICT_FN (dict x)) as [e |] eqn:He; [| discriminate].
      rewrite (batch_loop_raise _ _ _ _ _ He) in H. discriminate.
Qed.

End BatchLoop.

(** C8: the batch is not atomic.  When the prediction function returns
    on the items [pre] and raises on the next item, [POST /predict/batch]
    raises [HTTPException] with status 400 and leaves the connection with
    one inserted and committed row for each item of [pre]: every such row
    is in the committed table, no transaction is left open, and no later
    item is processed. *)
Theorem predict_batch_not_atomic :
  forall PREDICT_FN include_insights current_user pre bad post rows e db,
    Forall2 (fun x r =>
               MainPerfect.row_of PREDICT_FN include_insights current_user x = Some r)
      pre rows ->
    PREDICT_FN (MainPerfect.dict bad) = inl e ->
    MainPerfect.predict_batch (Some PREDICT_FN)
      {| MainPerfect.predictions := pre ++ bad :: post;
         MainPerfect.include_insights := include_insights |}
      current_user db
    = (inl (HTTPException 400 (str_exn e)), MainPerfect.persist_all rows db)
    /\ length rows = length pre
    /\ (forall r, r ∈ rows ->
          r ∈ MainPerfect.committed (MainPerfect.persist_all rows db))
    /\ (rows <> [] ->
        MainPerfect.committed (MainPerfect.persist_all rows db)
        = MainPerfect.committed db ++ MainPerfect.pending db ++ rows
        /\ MainPerfect.pending (MainPerfect.persist_all rows db) = []).
Proof.
  intros f b u pre bad post rows e db Hpre Hbad.
  split; [| split; [| split]].
  - unfold MainPerfect.predict_batch, MainPerfect.try_except_400, MainPerfect.hbind.
    simpl MainPerfect.predictions. simpl MainPerfect.include_insights.
    rewrite (batch_loop_prefix f b u pre rows Hpre).
    rewrite (batch_loop_raise f b u bad post _ _ e Hbad). reflexivity.
  - symmetry. exact (Forall2_length _ _ _ Hpre).
  - intros r Hr.
    destruct (persist_all_committed rows db) as [Hc _].
    { intros ->. inversion Hr. }
    rewrite Hc, !elem_of_app. right. right. exact Hr.
  - apply persist_all_committed.
Qed.

Lemma predict_batch_not_atomic_witness :
  exists row,
    MainPerfect.row_of (perfect_predict_fn echo_model) true sample_user
      (request_with 1000 Data.NoDate) = Some row
    /\ MainPerfect.predict_batch (Some (perfect_predict_fn echo_model))
         {| MainPerfect.predictions :=
              [request_with 1000 Data.NoDate;
               request_with 2000 (Data.BadDate "soon");
               request_with 3000 Data.NoDate];
            MainPerfect.include_insights := true |}
         sample_user empty_db
       = (inl (HTTPException 400 "Unknown datetime string format: soon"),
          {| MainPerfect.committed := [row]; MainPerfect.pending := [] |}).
Proof.
  eexists. split; [cbv; reflexivity |].
  apply (predict_batch_not_atomic (perfect_predict_fn echo_model) true sample_user
           [request_with 1000 Data.NoDate] (request_with 2000 (Data.BadDate "soon"))
           [request_with 3000 Data.NoDate] [_]
           (ValueError "Unknown datetime string format: soon") empty_db).
  - constructor; [cbv; reflexivity | constructor].
  - cbv. reflexivity.
Defined.

Section MinMax.

Local Open Scope Q_scope.





End MinMax.





(** ** The train/test split (C4) *)

Section Select.

Import Sklearn.
Context {A : Type}.







End Select.











(** ** Ranking the candidates (C2) *)

Section Ranking.

Import Py.
Context {A : Type} (key : A -> Q).
Local Open Scope Q_scope.

Lemma later_if_larger_assoc x y z :
  later_if_larger key (later_if_larger key x y) z
  = later_if_larger key x (later_if_larger key y z).
Proof.
  unfold later_if_larger.
  destruct (Qlt_le_dec (key x) (key y)), (Qlt_le_dec (key y) (key z));
    try reflexivity;
    repeat match goal with
           | |- context [Qlt_le_dec ?a ?b] => destruct (Qlt_le_dec a b)
           end; try reflexivity; lra.
Qed.

Lemma fold_later_if_larger l : forall x,
  fold_left (later_if_larger key) l x
  = match first_largest key l with
    | None => x
    | Some h => later_if_larger key x h
    end.
Proof.
  induction l as [| y l IH]; intros x; [reflexivity |].
  simpl. rewrite IH. destruct (first_largest key l) as [h |]; [| reflexivity].
  apply later_if_larger_assoc.
Qed.

Lemma head_insert_desc x s :
  head (insert_desc key x s)
  = Some match head s with
         | None => x
         | Some h => later_if_larger key x h
         end.
Proof.
  destruct s as [| y s]; [reflexivity |].
  simpl. unfold later_if_larger. destruct (Qlt_le_dec (key x) (key y)); reflexivity.
Qed.

Lemma head_sorted_reverse l : head (sorted_reverse key l) = first_largest key l.
Proof.
  induction l as [| x l IH]; [reflexivity |].
  simpl. rewrite head_insert_desc, IH. reflexivity.
Qed.

(** [max(l, key)] is the first item of [sorted(l, key, reverse=True)]. *)
Lemma max_by_head_sorted l b :
  max_by key l = inr b -> head (sorted_reverse key l) = Some b.
Proof.
  destruct l as [| x l]; [discriminate |].
  unfold max_by. intros H. inversion H as [Hb]; clear H.
  rewrite head_sorted_reverse. simpl. f_equal.
  rewrite <- fold_later_if_larger. reflexivity.
Qed.

Lemma insert_desc_perm x l : Permutation (insert_desc key x l) (x :: l).
Proof.
  induction l as [| y l IH]; [reflexivity |].
  simpl. destruct (Qlt_le_dec (key x) (key y)); [| reflexivity].
  rewrite IH. apply perm_swap.
Qed.

Lemma sorted_reverse_perm l : Permutation (sorted_reverse key l) l.
Proof.
  induction l as [| x l IH]; [reflexivity |].
  simpl. rewrite insert_desc_perm, IH. reflexivity.
Qed.

Lemma descending_cons x l :
  (forall b, b ∈ l -> key b <= key x) -> descending key l -> descending key (x :: l).
Proof.
  intros Hx Hl l1 l2 Heq a b Ha Hb.
  destruct l1 as [| y l1]; [inversion Ha |].
  simpl in Heq. inversion Heq; subst; clear Heq.
  apply elem_of_cons in Ha as [-> | Ha].
  - apply Hx. apply elem_of_app. right. exact Hb.
  - exact (Hl l1 l2 eq_refl a b Ha Hb).
Qed.

Lemma descending_tail x l : descending key (x :: l) -> descending key l.
Proof.
  intros H l1 l2 -> a b Ha Hb.
  apply (H (x :: l1) l2 eq_refl a b); [right; exact Ha | exact Hb].
Qed.

Lemma descending_head x l b : descending key (x :: l) -> b ∈ l -> key b <= key x.
Proof.
  intros H Hb. apply (H [x] l eq_refl x b); [left | exact Hb].
Qed.

Lemma insert_desc_descending x l :
  descending key l -> descending key (insert_desc key x l).
Proof.
  induction l as [| y l IH]; intros Hl.
  - simpl. apply descending_cons; [intros b Hb; inversion Hb |].
    intros l1 l2 Heq a b Ha Hb. symmetry in Heq.
    apply app_eq_nil in Heq as [-> _]. inversion Ha.
  - simpl. destruct (Qlt_le_dec (key x) (key y)) as [Hlt | Hle].
    + apply descending_cons; [| apply IH, (descending_tail y), Hl].
      intros b Hb. rewrite insert_desc_perm in Hb.
      apply elem_of_cons in Hb as [-> | Hb]; [lra |].
      exact (descending_head y l b Hl Hb).
    + apply descending_cons; [| exact Hl].
      intros b Hb. apply elem_of_cons in Hb as [-> | Hb]; [exact Hle |].
      pose proof (descending_head y l b Hl Hb). lra.
Qed.

Lemma sorted_reverse_descending l : descending key (sorted_reverse key l).
Proof.
  induction l as [| x l IH].
  - intros l1 l2 Heq a b Ha. symmetry in Heq.
    apply app_eq_nil in Heq as [-> _]. inversion Ha.
  - simpl. apply insert_desc_descending, IH.
Qed.

(** The first [n] items of the ranking outrank all the others. *)
Lemma top_outranks_rest n l a b :
  a ∈ take n (sorted_reverse key l) ->
  b ∈ drop n (sorted_reverse key l) ->
  key b <= key a.
Proof.
  intros Ha Hb.
  exact (sorted_reverse_descending l _ _
           (eq_sym (take_drop n (sorted_reverse key l))) a b Ha Hb).
Qed.

End Ranking.

Lemma dict_get_elem {V} (k : string) (d : Py.dict V) (v : V) :
  Py.dict_get k d = inr v -> (k, v) ∈ d.
Proof.
  induction d as [| [k' v'] d IH]; [discriminate |].
  simpl. destruct (String.eqb k k') eqn:Hk.
  - apply String.eqb_eq in Hk as ->. intros H. inversion H. left.
  - intros H. right. exact (IH H).
Qed.

Lemma nodup_fst_functional {A B} (l : list (A * B)) x y1 y2 :
  NoDup l.*1 -> (x, y1) ∈ l -> (x, y2) ∈ l -> y1 = y2.
Proof.
  induction l as [| [a b] l IH]; intros Hnd H1 H2; [inversion H1 |].
  simpl in Hnd. apply NoDup_cons in Hnd as [Hnot Hnd].
  assert (forall y, (a, y) ∈ l -> False) as Habsurd.
  { intros y Hy. apply Hnot. apply list_elem_of_fmap. exists (a, y). auto. }
  apply elem_of_cons in H1 as [H1 | H1], H2 as [H2 | H2].
  - congruence.
  - inversion H1; subst. destruct (Habsurd _ H2).
  - inversion H2; subst. destruct (Habsurd _ H1).
  - exact (IH Hnd H1 H2).
Qed.

Lemma zip_Forall2_elem {A B} (P : A -> B -> Prop) l k x y :
  Forall2 P l k -> (x, y) ∈ zip l k -> P x y.
Proof.
  induction 1 as [| a b l k Hab _ IH]; intros Hin; [inversion Hin |].
  simpl in Hin. apply elem_of_cons in Hin as [Heq | Hin].
  - inversion Heq; subst. exact Hab.
  - exact (IH Hin).
Qed.

Lemma zip_Forall2_chain {A B C} (P : A -> B -> Prop) (R : B -> C -> Prop)
    l ps ms n m :
  Forall2 P l ps -> Forall2 R ps ms -> (n, m) ∈ zip l ms ->
  exists p, (n, p) ∈ zip l ps /\ P n p /\ R p m.
Proof.
  intros HP. revert ms. induction HP as [| a p l ps Hap _ IH]; intros ms HR Hin.
  - inversion Hin.
  - inversion HR as [| p' c ps' ms' Hpc HR']; subst. simpl in Hin.
    apply elem_of_cons in Hin as [Heq | Hin].
    + inversion Heq; subst. exists p. split; [left | split; assumption].
    + destruct (IH ms' HR' Hin) as (q & Hq & HPq & HRq).
      exists q. split; [right; exact Hq | split; assumption].
Qed.

Lemma candidates_nodup : NoDup Trainer.candidates.
Proof. apply (bool_decide_unpack (NoDup Trainer.candidates)). vm_compute. exact I. Qed.

Section Training.

Import Sklearn Trainer.

Context {Pipeline Ensemble : Type}.
Variable read_csv : string -> Exc (list observation).
Variable groupby_transform :
  list string -> string -> list observation -> list (option Q).
Variable train_test_split : train_test_split_t.
Variable pipeline_fit :
  string -> nat -> list train_features -> list Q -> Exc Pipeline.
Variable pipeline_predict : Pipeline -> list train_features -> Exc (list Q).
Variable voting_fit :
  list (string * Pipeline) -> list train_features -> list Q -> Exc Ensemble.
Variable voting_predict : Ensemble -> list train_features -> Exc (list Q).
Variable mean_absolute_error r2_score root_mean_squared_error :
  list Q -> list Q -> Q.

(** After the loop over the seven candidates on a new predictor, both
    dicts hold the candidates in order: each pipeline fitted on the
    training split, with its scores on the held-out split. *)
Lemma train_candidates_init X_train y_train X_test y_test self :
  train_candidates (Ensemble := Ensemble) pipeline_fit pipeline_predict
    mean_absolute_error r2_score root_mean_squared_error
    X_train y_train X_test y_test candidates init = inr self ->
  exists ps ms,
    Forall2 (fitted pipeline_fit X_train y_train) candidates ps
    /\ Forall2 (scored pipeline_predict mean_absolute_error r2_score
               root_mean_squared_error X_test y_test) ps ms
    /\ models self = zip candidates ps
    /\ model_performance self = zip candidates ms
    /\ best_model self = None.
Proof.
  unfold candidates, train_candidates, train_candidate, bind.
  repeat match goal with
         | |- context [pipeline_fit ?n 15 X_train y_train] =>
             let p := fresh "p" in
             let Hp := fresh "Hp" in
             destruct (pipeline_fit n 15 X_train y_train) as [? | p] eqn:Hp;
             [discriminate |]
         | |- context [pipeline_predict ?p X_test] =>
             let y := fresh "y_pred" in
             let Hy := fresh "Hy" in
             destruct (pipeline_predict p X_test) as [? | y] eqn:Hy;
             [discriminate |]
         end.
  intros H. inversion H; subst; clear H. simpl.
  eexists [_; _; _; _; _; _; _], [_; _; _; _; _; _; _].
  split; [repeat constructor; eassumption |].
  split; [| repeat split].
  repeat (constructor; [eexists; split; [eassumption | reflexivity] |]).
  constructor.
Qed.

(** [self.models[name]] for the names of a ranking. *)
Lemma estimators_of_spec (self : @predictor Pipeline Ensemble) top es :
  estimators_of self top = inr es ->
  es.*1 = top.*1 /\ forall n p, (n, p) ∈ es -> (n, p) ∈ models self.
Proof.
  revert es. induction top as [| [n m] top IH]; intros es H.
  - inversion H. split; [reflexivity |]. intros n p Hin. inversion Hin.
  - simpl in H. unfold bind in H.
    destruct (Py.dict_get n (models self)) as [e | p] eqn:Hp; [discriminate |].
    destruct (estimators_of self top) as [e | ps]; [discriminate |].
    inversion H; subst; clear H.
    destruct (IH ps eq_refl) as [Hnames Hin]. split.
    + simpl. f_equal. exact Hnames.
    + intros n' p' Hel. apply elem_of_cons in Hel as [Heq | Hel].
      * inversion Heq; subst. exact (dict_get_elem _ _ _ Hp).
      * exact (Hin n' p' Hel).
Qed.

Lemma candidate_file_name n :
  n ∈ candidates ->
  ("models/" ++ MainPerfect.lower n ++ "_model.pkl")%string
  <> "models/perfect_crop_price_model.pkl".
Proof.
  unfold candidates. intros Hn.
  repeat (apply elem_of_cons in Hn as [-> | Hn];
          [intros H; vm_compute in H; discriminate H |]).
  inversion Hn.
Qed.

Lemma pickled_pipelines_elsewhere (ms : Py.dict Pipeline) :
  (forall n p, (n, p) ∈ ms -> n ∈ candidates) ->
  forall fs0 : gmap string (@file Pipeline Ensemble),
    fold_left (fun fs (kv : string * Pipeline) =>
                 <[("models/" ++ MainPerfect.lower kv.1 ++ "_model.pkl")%string
                   := PickledPipeline kv.2]> fs) ms fs0
    !! "models/perfect_crop_price_model.pkl"
    = fs0 !! "models/perfect_crop_price_model.pkl".
Proof.
  induction ms as [| [n p] ms IH]; intros Hnames fs0; [reflexivity |].
  simpl. rewrite IH.
  - apply lookup_insert_ne, candidate_file_name, (Hnames n p). left.
  - intros n' p' Hin. apply (Hnames n' p'). right. exact Hin.
Qed.

(** [save_models] leaves [self.best_model] in the file the service loads. *)
Lemma save_models_best now (self : @predictor Pipeline Ensemble) fs :
  (forall n p, (n, p) ∈ models self -> n ∈ candidates) ->
  save_models now self fs !! "models/perfect_crop_price_model.pkl"
  = Some (PickledBestModel (best_model self)).
Proof.
  intros Hnames. unfold save_models.
  rewrite lookup_insert_ne by discriminate.
  rewrite (pickled_pipelines_elsewhere _ Hnames).
  apply lookup_insert_eq.
Qed.


(** The three best-scored entries of a score table with distinct names. *)
Lemma top3_ranking (perf : Py.dict metrics) :
  NoDup perf.*1 -> (3 <= length perf)%nat ->
  let top := take 3 (Py.sorted_reverse (fun kv : string * metrics => r2 kv.2) perf) in
  length top = 3%nat
  /\ NoDup top.*1
  /\ (forall kv, kv ∈ top -> kv ∈ perf)
  /\ (forall n m n' m',
        (n, m) ∈ top -> (n', m') ∈ perf -> n' ∉ top.*1 -> (r2 m' <= r2 m)%Q).
Proof.
  intros Hnd Hlen top.
  pose proof (sorted_reverse_perm (fun kv : string * metrics => r2 kv.2) perf)
    as Hperm.
  set (ranked := Py.sorted_reverse (fun kv : string * metrics => r2 kv.2) perf) in *.
  assert (forall kv, kv ∈ top -> kv ∈ perf) as Hsub.
  { intros kv Hkv. rewrite <- Hperm.
    apply elem_of_take in Hkv as (i & Hi & _).
    exact (list_elem_of_lookup_2 _ _ _ Hi). }
  split; [| split; [| split; [exact Hsub |]]].
  - unfold top. rewrite length_take, (Permutation_length Hperm). lia.
  - unfold top. rewrite fmap_take.
    apply (sublist_NoDup _ (ranked.*1)); [| apply sublist_take].
    rewrite Hperm. exact Hnd.
  - intros n m n' m' Hin Hin' Hnot.
    rewrite <- Hperm, <- (take_drop 3 ranked) in Hin'.
    apply elem_of_app in Hin' as [Htop | Hrest].
    + exfalso. apply Hnot. apply list_elem_of_fmap. exists (n', m'). auto.
    + exact (top_outranks_rest (fun kv : string * metrics => r2 kv.2)
               3 perf (n, m) (n', m') Hin Hrest).
Qed.


(** C2: a training run that returns, started on a new predictor (as
    every caller starts it), has stored and returned as [best_model], and
    written to the file the service loads, a voting ensemble fitted on
    the training split over exactly three of the seven candidate
    pipelines, each fitted on the training split; no candidate left out
    has a higher held-out R2 than a member.  The best single candidate by
    R2 was computed before (it was [best_model] after
    [train_ensemble_models]) and is the first member of the ranking; the
    served artifact is the ensemble, not it. *)
Theorem train_serves_top3_ensemble now file_path fs a self' fs' :
  train read_csv groupby_transform train_test_split pipeline_fit
    pipeline_predict voting_fit voting_predict mean_absolute_error r2_score
    root_mean_squared_error now file_path init fs
  = inr (a, self', fs') ->
  exists df X_train X_test y_train y_test best_model_name
         (self1 : @predictor Pipeline Ensemble) estimators e,
    load_and_prepare_data read_csv groupby_transform file_path = inr df
    /\ split_data train_test_split df = inr (X_train, X_test, y_train, y_test)
    /\ train_ensemble_models pipeline_fit pipeline_predict mean_absolute_error
         r2_score root_mean_squared_error X_train y_train X_test y_test init
       = inr (best_model_name, self1)
    /\ voting_fit estimators X_train y_train = inr e
    /\ a = VotingEnsemble e
    /\ best_model self' = Some (VotingEnsemble e)
    /\ fs' !! "models/perfect_crop_price_model.pkl"
       = Some (PickledBestModel (Some (VotingEnsemble e)))
    /\ length estimators = 3%nat
    /\ NoDup estimators.*1
    /\ (forall n p, (n, p) ∈ estimators ->
          n ∈ candidates /\ fitted pipeline_fit X_train y_train n p)
    /\ (model_performance self').*1 = candidates
    /\ (forall n m, (n, m) ∈ model_performance self' ->
          exists p, fitted pipeline_fit X_train y_train n p /\ scored pipeline_predict mean_absolute_error r2_score
               root_mean_squared_error X_test y_test p m)
    /\ (forall n p m n' m',
          (n, p) ∈ estimators ->
          (n, m) ∈ model_performance self' ->
          (n', m') ∈ model_performance self' ->
          n' ∉ estimators.*1 ->
          (r2 m' <= r2 m)%Q)
    /\ head estimators.*1 = Some best_model_name
    /\ (exists p, best_model self1 = Some (SinglePipeline p)
                  /\ fitted pipeline_fit X_train y_train best_model_name p)
    /\ (forall n m, (n, m) ∈ model_performance self' ->
          exists mb, (best_model_name, mb) ∈ model_performance self'
                     /\ (r2 m <= r2 mb)%Q).
Proof.
  intros H. unfold train, bind in H.
  destruct (load_and_prepare_data read_csv groupby_transform file_path)
    as [? | df] eqn:Hdf; [discriminate |].
  destruct (split_data train_test_split df)
    as [? | [[[X_train X_test] y_train] y_test]] eqn:Hsplit; [discriminate |].
  destruct (train_ensemble_models _ _ _ _ _ X_train y_train X_test y_test init)
    as [? | [best_model_name self1]] eqn:Htem; [discriminate |].
  destruct (create_ensemble_predictor _ X_train y_train self1)
    as [? | e] eqn:Hens; [discriminate |].
  destruct (voting_predict e X_test); [discriminate |].
  inversion H; subst a self' fs'; clear H.
  exists df, X_train, X_test, y_train, y_test, best_model_name, self1.
  (* the loop, the best single candidate *)
  pose proof Htem as Htem'.
  unfold train_ensemble_models, bind in Htem'.
  destruct (train_candidates _ _ _ _ _ X_train y_train X_test y_test candidates init)
    as [? | self0] eqn:Hloop; [discriminate |].
  destruct (Py.max_by _ (model_performance self0)) as [? | best] eqn:Hmax;
    [discriminate |].
  destruct (Py.dict_get best.1 (models self0)) as [? | pbest] eqn:Hget;
    [discriminate |].
  inversion Htem'; subst best_model_name self1; clear Htem'.
  destruct (train_candidates_init _ _ _ _ _ Hloop)
    as (ps & ms & Hfit & Hscore & Hmodels & Hperf & _).
  assert (length ps = 7%nat) as Hps by (rewrite <- (Forall2_length _ _ _ Hfit); reflexivity).
  assert (length ms = 7%nat) as Hms by (rewrite <- (Forall2_length _ _ _ Hscore); exact Hps).
  assert ((model_performance self0).*1 = candidates) as Hnames.
  { rewrite Hperf. apply fst_zip. rewrite Hms. simpl. lia. }
  (* the ensemble *)
  unfold create_ensemble_predictor, bind in Hens. simpl in Hens.
  destruct (estimators_of _ _) as [? | estimators] eqn:Hest; [discriminate |].
  exists estimators, e.
  apply estimators_of_spec in Hest as [Hest_names Hest_in]. simpl in Hest_in.
  unfold top_models_of in Hest_names. simpl in Hest_names.
  destruct (top3_ranking (model_performance self0)) as (Hlen & Htopnd & Hsub & Hrank).
  { rewrite Hnames. exact candidates_nodup. }
  { rewrite Hperf, length_zip, Hms. simpl. lia. }
  pose proof (max_by_head_sorted _ _ _ Hmax) as Hhead.
  repeat (split; [first [exact Hdf | exact Hsplit | exact Htem | exact Hens
                        | reflexivity] |]).
  split.
  { apply save_models_best. simpl. intros n p Hin. rewrite Hmodels in Hin.
    exact (elem_of_zip_l _ _ _ _ Hin). }
  split.
  { rewrite <- (length_fmap fst estimators), Hest_names, length_fmap. exact Hlen. }
  split; [rewrite Hest_names; exact Htopnd |].
  split.
  { intros n p Hin. apply Hest_in in Hin. rewrite Hmodels in Hin.
    split; [exact (elem_of_zip_l _ _ _ _ Hin) |].
    exact (zip_Forall2_elem _ _ _ _ _ Hfit Hin). }
  split; [exact Hnames |].
  split.
  { simpl. intros n m Hin. rewrite Hperf in Hin.
    destruct (zip_Forall2_chain _ _ _ _ _ _ _ Hfit Hscore Hin) as (p & _ & Hp & Hm).
    exists p. split; assumption. }
  split.
  { simpl. intros n p m n' m' Hin Hm Hm' Hnot.
    assert (n ∈ estimators.*1) as Hn.
    { apply list_elem_of_fmap. exists (n, p). auto. }
    rewrite Hest_names in Hn, Hnot.
    apply list_elem_of_fmap in Hn as ([n0 m0] & Heq & Htop). simpl in Heq. subst n0.
    assert (m0 = m) as ->.
    { apply (nodup_fst_functional (model_performance self0) n).
      - rewrite Hnames. exact candidates_nodup.
      - exact (Hsub _ Htop).
      - exact Hm. }
    exact (Hrank n m n' m' Htop Hm' Hnot). }
  split.
  { rewrite Hest_names, fmap_take.
    destruct (Py.sorted_reverse _ (model_performance self0)) as [| b ranked];
      [discriminate |].
    simpl in Hhead. inversion Hhead. reflexivity. }
  split.
  { exists pbest. split; [reflexivity |].
    apply dict_get_elem in Hget. rewrite Hmodels in Hget.
    exact (zip_Forall2_elem _ _ _ _ _ Hfit Hget). }
  simpl. intros n m Hin. exists best.2.
  pose proof (sorted_reverse_perm (fun kv : string * metrics => r2 kv.2)
                (model_performance self0)) as Hperm.
  pose proof (sorted_reverse_descending (fun kv : string * metrics => r2 kv.2)
                (model_performance self0)) as Hdesc.
  destruct (Py.sorted_reverse _ (model_performance self0)) as [| b ranked];
    [discriminate |].
  simpl in Hhead. inversion Hhead; subst b. split.
  - rewrite <- Hperm. destruct best. left.
  - rewrite <- Hperm in Hin. apply elem_of_cons in Hin as [Heq | Hin].
    + rewrite <- Heq. apply Qle_refl.
    + exact (descending_head _ best ranked (n, m) Hdesc Hin).
Qed.

End Training.


Lemma train_serves_top3_ensemble_witness :
  exists a self' fs',
    example_train ∅ = inr (a, self', fs')
    /\ a = Trainer.VotingEnsemble ["SVR"; "Ridge"; "Lasso"]
    /\ Trainer.best_model self' = Some a
    /\ fs' !! "models/perfect_crop_price_model.pkl"
       = Some (Trainer.PickledBestModel (Some a)).
Proof.
  destruct (example_train ∅) as [err | [[a self'] fs']] eqn:Hrun.
  - apply (f_equal served_artifact) in Hrun. lazy in Hrun. discriminate Hrun.
  - exists a, self', fs'. split; [reflexivity |].
    destruct (train_serves_top3_ensemble _ _ _ _ _ _ _ _ _ _ _ _ _ _ _ _ Hrun)
      as (df & X_train & X_test & y_train & y_test & name & self1 & es & e
          & _ & _ & _ & _ & Ha & Hbest & Hfile & _).
    assert (a = Trainer.VotingEnsemble ["SVR"; "Ridge"; "Lasso"]) as Hserved.
    { apply (f_equal served_artifact) in Hrun. lazy in Hrun.
      inversion Hrun. reflexivity. }
    rewrite Hbest, Hfile, <- Ha. repeat split. exact Hserved.
Defined.

(** * Further properties *)

(** ** Rounding is monotone; the band brackets the price *)

Section RoundingOrder.

Import Numeric.
Local Open Scope Q_scope.

Lemma round_half_even_bounds (x : Q) :
  (Qfloor x <= round_half_even x <= Qfloor x + 1)%Z.
Proof.
  unfold round_half_even.
  destruct (Qcompare _ _); [destruct (Z.even _) | |]; lia.
Qed.

(** Rounding to the nearest integer is monotone. *)
Lemma round_half_even_mono (x y : Q) :
  x <= y -> (round_half_even x <= round_half_even y)%Z.
Proof.
  intros Hxy.
  pose proof (Qfloor_resp_le x y Hxy) as Hf.
  destruct (Z.eq_dec (Qfloor x) (Qfloor y)) as [Heq | Hne].
  - unfold round_half_even. rewrite Heq.
    destruct (Qcompare (x - inject_Z (Qfloor y)) (1 # 2)) eqn:Hx;
      destruct (Qcompare (y - inject_Z (Qfloor y)) (1 # 2)) eqn:Hy;
      try (destruct (Z.even (Qfloor y))); try lia;
      first [apply Qeq_alt in Hx | apply Qlt_alt in Hx | apply Qgt_alt in Hx];
      first [apply Qeq_alt in Hy | apply Qlt_alt in Hy | apply Qgt_alt in Hy];
      exfalso; lra.
  - pose proof (round_half_even_bounds x). pose proof (round_half_even_bounds y). lia.
Qed.

Lemma round2_mono (x y : Q) : x <= y -> round2 x <= round2 y.
Proof.
  intros Hxy. rewrite !round2_spec.
  assert (x * 100 <= y * 100) as H100 by lra.
  apply round_half_even_mono in H100. rewrite Zle_Qle in H100.
  set (a := inject_Z (round_half_even (x * 100))) in *.
  set (b := inject_Z (round_half_even (y * 100))) in *.
  assert (a / 100 == a * (1 # 100)) as -> by (field; discriminate).
  assert (b / 100 == b * (1 # 100)) as -> by (field; discriminate).
  lra.
Qed.

Lemma round2_zero : round2 0 = 0.
Proof. reflexivity. Qed.

End RoundingOrder.

Lemma formats_brackets (x p : Q) (ci : list Q) :
  formats x p ci -> brackets p ci.
Proof.
  intros (-> & -> & _ & _).
  eexists _, _. split; [reflexivity |].
  split; intros Hp.
  - assert (0 <= x)%Q as Hx.
    { destruct (Qlt_le_dec x 0) as [Hneg | Hpos]; [| exact Hpos].
      assert (x <= 0)%Q as Hle by lra.
      apply round2_mono in Hle. rewrite round2_zero in Hle. lra. }
    split; apply round2_mono; lra.
  - assert (x <= 0)%Q as Hx.
    { destruct (Qlt_le_dec 0 x) as [Hpos | Hneg]; [| exact Hneg].
      assert (0 <= x)%Q as Hle by lra.
      apply round2_mono in Hle. rewrite round2_zero in Hle. lra. }
    split; apply round2_mono; lra.
Qed.

Lemma main_predict_returns m enc i r :
  Main.predict_price (Some m) (Some enc) i = inr r ->
  exists df x,
    m df = inr x
    /\ formats x (Main.predicted_price r) (Main.confidence_interval r).
Proof.
  intros H. unfold Main.predict_price, Main.except_400, bind in H.
  destruct (Main.encode enc "Crop" (Main.crop i)) as [e | c]; [discriminate |].
  destruct (Main.encode enc "State" (Main.state i)) as [e | s]; [discriminate |].
  match type of H with context [m ?d] => destruct (m d) as [e | x] eqn:Hm end;
    [discriminate |].
  eexists _, x. split; [exact Hm |].
  inversion H; subst; clear H. simpl. apply formats_round2.
Qed.

Lemma simple_predict_returns m now i r :
  MainSimple.predict_price (Some m) now i = inr r ->
  exists x,
    m (MainSimple.feature_engineering i) = inr x
    /\ formats x (MainSimple.predicted_price r) (MainSimple.confidence_interval r).
Proof.
  intros H. unfold MainSimple.predict_price, Main.except_400, bind in H.
  destruct (m (MainSimple.feature_engineering i)) as [e | x] eqn:Hm; [discriminate |].
  exists x. split; [reflexivity |].
  inversion H; subst; clear H. simpl. apply formats_round2.
Qed.

(** X1: in every variant, a returned band brackets a positive
    [predicted_price] (first bound at most the price, second at least),
    and is reversed around a negative one. *)
Theorem predict_band_brackets :
  (forall m now i r,
      Predictor.predict (Some m) now i = inr r ->
      brackets (Data.predicted_price r) (Data.confidence_interval r))
  /\ (forall m enc i r,
        Main.predict_price (Some m) (Some enc) i = inr r ->
        brackets (Main.predicted_price r) (Main.confidence_interval r))
  /\ (forall m now i r,
        MainSimple.predict_price (Some m) now i = inr r ->
        brackets (MainSimple.predicted_price r) (MainSimple.confidence_interval r)).
Proof.
  split; [| split].
  - intros m now i r H.
    destruct (predict_returns m now i r H) as (f & x & _ & _ & Hfmt).
    exact (formats_brackets _ _ _ Hfmt).
  - intros m enc i r H.
    destruct (main_predict_returns m enc i r H) as (df & x & _ & Hfmt).
    exact (formats_brackets _ _ _ Hfmt).
  - intros m now i r H.
    destruct (simple_predict_returns m now i r H) as (x & _ & Hfmt).
    exact (formats_brackets _ _ _ Hfmt).
Qed.

Lemma predict_band_brackets_witness :
  brackets 2150 [1935; 2365]%Q /\ (1935 <= 2150)%Q /\ (2150 <= 2365)%Q.
Proof.
  pose proof (proj1 predict_band_brackets growth_model "2024-01-01T00:00:00"
                sample_input sample_result) as H.
  assert (brackets 2150 [1935; 2365]%Q) as Hb.
  { apply H. vm_compute. reflexivity. }
  split; [exact Hb |].
  destruct Hb as (lo & hi & Heq & Hpos & _).
  inversion Heq; subst lo hi. apply Hpos. reflexivity.
Defined.

(** ** More on the batch endpoint *)

Section SumBounds.

Local Open Scope Q_scope.



End SumBounds.

(** What [summarize] returns when it returns. *)
Lemma summarize_returns n results response :
  MainPerfect.summarize n results = inr response ->
  let prices := map Data.predicted_price results in
  results <> []
  /\ MainPerfect.results response = results
  /\ MainPerfect.total_predictions (MainPerfect.summary response) = n
  /\ MainPerfect.summary_currency (MainPerfect.summary response) = "INR"
  /\ MainPerfect.average_price (MainPerfect.summary response)
     = Numeric.round2 (Numeric.sum prices / inject_Z (Z.of_nat (length results)))%Q
  /\ exists lo hi,
       Numeric.min prices = inr lo /\ Numeric.max prices = inr hi
       /\ MainPerfect.price_range (MainPerfect.summary response)
          = [Numeric.round2 lo; Numeric.round2 hi].
Proof.
  intros H prices. unfold MainPerfect.summarize, bind, Numeric.truediv in H.
  fold prices in H.
  destruct (Qeq_bool _ _) eqn:Hzero; [discriminate |].
  destruct (Numeric.min prices) as [e | lo] eqn:Hmin; [discriminate |].
  destruct (Numeric.max prices) as [e | hi] eqn:Hmax; [discriminate |].
  inversion H; subst; clear H. simpl.
  split; [intros ->; discriminate |].
  repeat (split; [reflexivity |]).
  exists lo, hi. repeat split.
Qed.

(** What [predict_batch] has done when it returns. *)
Lemma predict_batch_returns f request u db response db' :
  MainPerfect.predict_batch (Some f) request u db = (inr response, db') ->
  exists rows,
    Forall2 (fun x r =>
               MainPerfect.row_of f (MainPerfect.include_insights request) u x = Some r)
      (MainPerfect.predictions request) rows
    /\ db' = MainPerfect.persist_all rows db
    /\ MainPerfect.summarize (length (MainPerfect.predictions request))
         (map MainPerfect.prediction_result_json rows) = inr response.
Proof.
  intros H.
  unfold MainPerfect.predict_batch, MainPerfect.try_except_400, MainPerfect.hbind,
    MainPerfect.lift in H.
  destruct (MainPerfect.batch_loop f (MainPerfect.include_insights request) u
              (MainPerfect.predictions request) [] db) as [[e | res] db1] eqn:Hloop;
    [discriminate |].
  apply batch_loop_returns in Hloop as (rows & Hrows & -> & ->).
  simpl app in H.
  destruct (MainPerfect.summarize _ _) as [e | resp] eqn:Hsum; [discriminate |].
  inversion H; subst; clear H.
  exists rows. repeat split; assumption.
Qed.



(** X3: a batch call that returns has inserted and committed exactly one
    row per item, in request order, each under the caller's id and the
    model tag "perfect_ai"; the results are the stored results in the
    same order, [total_predictions] is their number, and no transaction
    is left open. *)
Theorem predict_batch_persists_each :
  forall PREDICT_FN request current_user db response db',
    MainPerfect.predict_batch (Some PREDICT_FN) request current_user db
    = (inr response, db') ->
    exists rows,
      Forall2 (fun x r =>
                 MainPerfect.row_of PREDICT_FN (MainPerfect.include_insights request)
                   current_user x = Some r)
        (MainPerfect.predictions request) rows
      /\ MainPerfect.results response = map MainPerfect.prediction_result_json rows
      /\ MainPerfect.total_predictions (MainPerfect.summary response) = length rows
      /\ MainPerfect.committed db'
         = MainPerfect.committed db ++ MainPerfect.pending db ++ rows
      /\ MainPerfect.pending db' = []
      /\ Forall (fun r => MainPerfect.user_id r = MainPerfect.id current_user
                          /\ MainPerfect.model_used r = "perfect_ai") rows.
Proof.
  intros f req u db resp db' H.
  apply predict_batch_returns in H as (rows & Hrows & -> & Hsum).
  apply summarize_returns in Hsum as (Hne & Hres & Htotal & _).
  exists rows. split; [exact Hrows |]. split; [exact Hres |].
  split; [rewrite Htotal; exact (Forall2_length _ _ _ Hrows) |].
  assert (rows <> []) as Hrows_ne by (intros ->; apply Hne; reflexivity).
  destruct (persist_all_committed rows db Hrows_ne) as [Hc Hp].
  split; [exact Hc |]. split; [exact Hp |].
  clear -Hrows. induction Hrows as [| x r items rows Hx _ IH]; constructor; [| exact IH].
  unfold MainPerfect.row_of in Hx.
  destruct (f (MainPerfect.dict x)); [discriminate |].
  inversion Hx. split; reflexivity.
Qed.

Lemma predict_batch_persists_each_witness :
  exists response db',
    MainPerfect.predict_batch (Some (perfect_predict_fn echo_model))
      batch_request sample_user empty_db = (inr response, db')
    /\ length (MainPerfect.committed db') = 3%nat
    /\ MainPerfect.pending db' = []
    /\ MainPerfect.total_predictions (MainPerfect.summary response) = 3%nat.
Proof.
  destruct (MainPerfect.predict_batch (Some (perfect_predict_fn echo_model))
              batch_request sample_user empty_db) as [[e | response] db'] eqn:Hrun.
  - vm_compute in Hrun. discriminate.
  - exists response, db'. split; [reflexivity |].
    destruct (predict_batch_persists_each _ _ _ _ _ _ Hrun)
      as (rows & Hrows & _ & Htotal & Hc & Hp & _).
    apply Forall2_length in Hrows. simpl in Hrows.
    rewrite Hc, Htotal, Hp. simpl. rewrite <- Hrows. repeat split.
Defined.

(** X4: a batch of one item with insights does what the single
    prediction endpoint does: the same change to the connection, the same
    exception when the prediction raises, and otherwise the single
    endpoint's result as the only batch result. *)
Theorem predict_batch_singleton :
  forall PREDICT_FN input_data current_user db,
    let single :=
      MainPerfect.predict_price (Some PREDICT_FN) input_data current_user db in
    let batch :=
      MainPerfect.predict_batch (Some PREDICT_FN)
        {| MainPerfect.predictions := [input_data];
           MainPerfect.include_insights := true |} current_user db in
    batch.2 = single.2
    /\ match single.1 with
       | inl e => batch.1 = inl e
       | inr result =>
           exists response,
             batch.1 = inr response
             /\ MainPerfect.results response = [result]
             /\ MainPerfect.total_predictions (MainPerfect.summary response) = 1%nat
       end.
Proof.
  intros f x u db single batch. subst single batch.
  unfold MainPerfect.predict_price, MainPerfect.predict_batch,
    MainPerfect.try_except_400. simpl MainPerfect.predictions.
  simpl MainPerfect.include_insights. simpl MainPerfect.batch_loop.
  unfold MainPerfect.hbind, MainPerfect.lift, MainPerfect.save_prediction,
    MainPerfect.hbind, MainPerfect.db_execute_insert, MainPerfect.db_commit,
    MainPerfect.hret.
  destruct (f (MainPerfect.dict x)) as [e | r0]; [split; reflexivity |].
  cbn [app length].
  match goal with
  | |- context [MainPerfect.summarize 1 ?l] =>
      destruct (MainPerfect.summarize 1 l) as [e | resp] eqn:Hsum
  end.
  - exfalso. unfold MainPerfect.summarize, bind, Numeric.truediv in Hsum.
    simpl in Hsum. discriminate.
  - apply summarize_returns in Hsum as (_ & Hres & Htotal & _).
    split; [reflexivity |]. exists resp. repeat split; assumption.
Qed.

(** ** Error statuses of the prediction handlers *)

(** X5: whatever the request, an exception leaving a prediction handler
    is [HTTPException] 503 when the model is not loaded and
    [HTTPException] 400 otherwise, never another one; a single prediction
    that fails leaves the connection as it was. *)
Theorem prediction_errors_503_or_400 :
  (forall model encoders input_data e,
      Main.predict_price model encoders input_data = inl e ->
      (e = HTTPException 503 "Model not loaded"
       /\ (model = None \/ encoders = None))
      \/ (exists detail, e = HTTPException 400 detail
                         /\ model <> None /\ encoders <> None))
  /\ (forall MODEL now input_data e,
        MainSimple.predict_price MODEL now input_data = inl e ->
        (e = HTTPException 503 "Model not available" /\ MODEL = None)
        \/ (exists detail, e = HTTPException 400 detail /\ MODEL <> None))
  /\ (forall PREDICT_FN input_data current_user db e db',
        MainPerfect.predict_price PREDICT_FN input_data current_user db = (inl e, db') ->
        db' = db
        /\ ((e = HTTPException 503 "Prediction service not available"
             /\ PREDICT_FN = None)
            \/ (exists detail, e = HTTPException 400 detail /\ PREDICT_FN <> None)))
  /\ (forall PREDICT_FN request current_user db e db',
        MainPerfect.predict_batch PREDICT_FN request current_user db = (inl e, db') ->
        (e = HTTPException 503 "Prediction service not available"
         /\ PREDICT_FN = None /\ db' = db)
        \/ (exists detail, e = HTTPException 400 detail /\ PREDICT_FN <> None)).
Proof.
  split; [| split; [| split]].
  - intros [m |] [enc |] i e H; simpl in H;
      try (inversion H; left; split; [reflexivity | auto]; fail).
    right. unfold Main.except_400 in H.
    match type of H with
    | match ?b with _ => _ end = _ => destruct b as [e0 | r]
    end; inversion H. eexists. repeat split; discriminate.
  - intros [m |] now i e H; simpl in H.
    + right. unfold Main.except_400 in H.
      match type of H with
      | match ?b with _ => _ end = _ => destruct b as [e0 | r]
      end; inversion H. eexists. split; [reflexivity | discriminate].
    + inversion H. left. split; reflexivity.
  - intros [f |] i u db e db' H.
    + unfold MainPerfect.predict_price, MainPerfect.try_except_400,
        MainPerfect.hbind, MainPerfect.lift, MainPerfect.save_prediction,
        MainPerfect.hbind, MainPerfect.db_execute_insert, MainPerfect.db_commit,
        MainPerfect.hret in H.
      destruct (f (MainPerfect.dict i)) as [e0 | r]; inversion H.
      split; [reflexivity |]. right. eexists. split; [reflexivity | discriminate].
    + inversion H. split; [reflexivity |]. left. split; reflexivity.
  - intros [f |] req u db e db' H.
    + right. unfold MainPerfect.predict_batch, MainPerfect.try_except_400 in H.
      match type of H with
      | match ?b with _ => _ end = _ => destruct b as [[e0 | r] db1]
      end; inversion H. eexists. split; [reflexivity | discriminate].
    + inversion H. left. repeat split.
Qed.

Lemma prediction_errors_503_or_400_witness :
  exists detail,
    MainPerfect.predict_price (Some (perfect_predict_fn echo_model))
      (request_with 2000 (Data.BadDate "soon")) sample_user empty_db
    = (inl (HTTPException 400 detail), empty_db).
Proof.
  destruct (MainPerfect.predict_price (Some (perfect_predict_fn echo_model))
              (request_with 2000 (Data.BadDate "soon")) sample_user empty_db)
    as [[e | r] db'] eqn:Hrun.
  - destruct (proj1 (proj2 (proj2 prediction_errors_503_or_400)) _ _ _ _ _ _ Hrun)
      as [-> [[_ Hnone] | (detail & -> & _)]]; [discriminate Hnone |].
    exists detail. reflexivity.
  - vm_compute in Hrun. discriminate Hrun.
Defined.

(** ** Market insights and recommendations *)

Lemma lower_ascii_idempotent c :
  MainPerfect.lower_ascii (MainPerfect.lower_ascii c) = MainPerfect.lower_ascii c.
Proof. destruct c as [[] [] [] [] [] [] [] []]; reflexivity. Qed.

Lemma lower_idempotent s : MainPerfect.lower (MainPerfect.lower s) = MainPerfect.lower s.
Proof.
  induction s as [| c s IH]; [reflexivity |].
  simpl. rewrite lower_ascii_idempotent, IH. reflexivity.
Qed.

Lemma str_in_two s a b :
  MainPerfect.str_in s [a; b] = true -> s = a \/ s = b.
Proof.
  unfold MainPerfect.str_in. simpl. rewrite orb_false_r.
  intros H. apply orb_true_iff in H as [H | H]; apply String.eqb_eq in H; auto.
Qed.

(** X6: market insights match the crop name without regard to case and
    ignore the state; the recommended actions always begin with the three
    general actions, and have a fourth one exactly for potato and
    onion. *)
Theorem market_insights_by_lowercase_crop :
  forall crop state state',
    MainPerfect.generate_market_insights crop state
    = MainPerfect.generate_market_insights (MainPerfect.lower crop) state'
    /\ take 3 (Data.recommended_actions
                 (MainPerfect.generate_market_insights crop state))
       = base_actions
    /\ length (Data.recommended_actions
                 (MainPerfect.generate_market_insights crop state))
       = if MainPerfect.str_in (MainPerfect.lower crop) ["potato"; "onion"]
         then 4%nat else 3%nat.
Proof.
  intros crop state state'.
  unfold MainPerfect.generate_market_insights. rewrite lower_idempotent.
  split; [reflexivity |].
  destruct (MainPerfect.str_in (MainPerfect.lower crop) ["rice"; "wheat"]) eqn:H1.
  { apply str_in_two in H1 as [-> | ->]; split; reflexivity. }
  destruct (MainPerfect.str_in (MainPerfect.lower crop) ["cotton"; "sugarcane"]) eqn:H2.
  { apply str_in_two in H2 as [-> | ->]; split; reflexivity. }
  destruct (MainPerfect.str_in (MainPerfect.lower crop) ["potato"; "onion"]) eqn:H3;
    split; reflexivity.
Qed.

(** X7: recommendations number at most four; the high-price message is
    given exactly above 3000 and the low-price message exactly below
    1500, never both; and for a month in 1..12 a seasonal message (winter
    or monsoon) is given exactly when the month is not 3, 4 or 5. *)
Theorem recommendations_shape :
  forall prediction input_data,
    let r := MainPerfect.generate_recommendations prediction input_data in
    (length r <= 4)%nat
    /\ MainPerfect.str_in msg_high_price r
       = MainPerfect.Qgtb (Data.predicted_price prediction) 3000
    /\ MainPerfect.str_in msg_low_price r
       = MainPerfect.Qltb (Data.predicted_price prediction) 1500
    /\ MainPerfect.str_in msg_high_price r && MainPerfect.str_in msg_low_price r = false
    /\ (1 <= Data.month input_data <= 12 ->
        MainPerfect.str_in msg_winter r || MainPerfect.str_in msg_monsoon r
        = negb (MainPerfect.Z_in (Data.month input_data) [3; 4; 5])).
Proof.
  intros p i r. subst r. unfold MainPerfect.generate_recommendations.
  assert (MainPerfect.Qgtb (Data.predicted_price p) 3000 = true ->
          MainPerfect.Qltb (Data.predicted_price p) 1500 = true -> False) as Hexcl.
  { unfold MainPerfect.Qgtb, MainPerfect.Qltb.
    destruct (Qlt_le_dec 3000 (Data.predicted_price p)),
      (Qlt_le_dec (Data.predicted_price p) 1500); try discriminate.
    intros _ _. lra. }
  split; [| split; [| split; [| split]]].
  1-4: destruct (MainPerfect.Qgtb (Data.predicted_price p) 3000);
    destruct (MainPerfect.Qltb (Data.predicted_price p) 1500);
    try (destruct (Hexcl eq_refl eq_refl));
    destruct (MainPerfect.Qgtb (Data.temperature i) 35);
    destruct (MainPerfect.Qltb (Data.rainfall i) 50);
    destruct (MainPerfect.Z_in (Data.month i) [10; 11; 12; 1; 2]);
    destruct (MainPerfect.Z_in (Data.month i) [6; 7; 8; 9]);
    first [reflexivity | simpl; lia].
  intros Hm.
  assert (Data.month i = 1 \/ Data.month i = 2 \/ Data.month i = 3
          \/ Data.month i = 4 \/ Data.month i = 5 \/ Data.month i = 6
          \/ Data.month i = 7 \/ Data.month i = 8 \/ Data.month i = 9
          \/ Data.month i = 10 \/ Data.month i = 11 \/ Data.month i = 12)
    as Hcases by lia.
  destruct (MainPerfect.Qgtb (Data.predicted_price p) 3000);
    destruct (MainPerfect.Qltb (Data.predicted_price p) 1500);
    destruct (MainPerfect.Qgtb (Data.temperature i) 35);
    destruct (MainPerfect.Qltb (Data.rainfall i) 50);
    repeat (destruct Hcases as [Hc | Hcases]; [rewrite Hc; reflexivity |]);
    rewrite Hcases; reflexivity.
Qed.

Lemma recommendations_shape_witness :
  MainPerfect.str_in msg_winter
    (MainPerfect.generate_recommendations sample_result sample_input)
  || MainPerfect.str_in msg_monsoon
       (MainPerfect.generate_recommendations sample_result sample_input)
  = true.
Proof.
  apply (proj2 (proj2 (proj2 (proj2
           (recommendations_shape sample_result sample_input))))).
  vm_compute. split; discriminate.
Defined.

(** ** Temporal features *)

(** X8: a request of [main_perfect.py] always carries the [date] key, so
    its temporal features never come from the month: they are read off
    the date, and are missing (with [is_weekend] false) when the request
    has no date; feature engineering raises exactly when the date string
    is rejected by the parser; and the engineered row always has 25
    columns. *)
Theorem api_temporal_from_date :
  forall x : MainPerfect.PredictionInput,
    FeatureEngineering.engineered_columns (MainPerfect.dict x) = 25%nat
    /\ ((exists e, FeatureEngineering._apply_feature_engineering (MainPerfect.dict x)
                   = inl e)
        <-> exists s, MainPerfect.date x = Data.BadDate s)
    /\ forall f,
         FeatureEngineering._apply_feature_engineering (MainPerfect.dict x) = inr f ->
         (Data.day_of_year f, Data.quarter f, Data.is_weekend f)
         = temporal_of_date (date_parts_of (MainPerfect.date x)).
Proof.
  intros x. split; [reflexivity |].
  unfold FeatureEngineering._apply_feature_engineering,
    FeatureEngineering.temporal, bind. simpl Data.date.
  destruct (MainPerfect.date x) as [| s | d]; simpl; (split; [split |]).
  - intros [e H]. discriminate H.
  - intros [s' H]. discriminate H.
  - intros f H. inversion H. reflexivity.
  - intros _. exists s. reflexivity.
  - intros _. eexists. reflexivity.
  - intros f H. discriminate H.
  - intros [e H]. discriminate H.
  - intros [s' H]. discriminate H.
  - intros f H. inversion H. reflexivity.
Qed.

Lemma api_temporal_from_date_witness :
  exists f,
    FeatureEngineering._apply_feature_engineering (MainPerfect.dict sample_request)
    = inr f
    /\ Data.day_of_year f = None /\ Data.quarter f = None
    /\ Data.is_weekend f = false.
Proof.
  destruct (FeatureEngineering._apply_feature_engineering
              (MainPerfect.dict sample_request)) as [e | f] eqn:Hf.
  - vm_compute in Hf. discriminate Hf.
  - exists f. split; [reflexivity |].
    pose proof (proj2 (proj2 (api_temporal_from_date sample_request)) f Hf) as H.
    inversion H. repeat split.
Defined.

(** X9: for a mapping without a [date] key and a month in 1..12, feature
    engineering returns; the quarter is the calendar quarter of the
    month, between 1 and 4, the day of year is thirty times the month,
    between 30 and 360, and [is_weekend] is false. *)
Theorem month_fallback_temporal :
  forall i : Data.raw_input,
    Data.date i = None ->
    1 <= Data.month i <= 12 ->
    exists f q,
      FeatureEngineering._apply_feature_engineering i = inr f
      /\ Data.quarter f = Some q
      /\ 1 <= q <= 4 /\ 3 * (q - 1) < Data.month i <= 3 * q
      /\ Data.day_of_year f = Some (30 * Data.month i)
      /\ 30 <= 30 * Data.month i <= 360
      /\ Data.is_weekend f = false.
Proof.
  intros i Hdate Hm.
  unfold FeatureEngineering._apply_feature_engineering,
    FeatureEngineering.temporal, bind. rewrite Hdate.
  eexists _, _. split; [reflexivity |]. simpl.
  split; [reflexivity |].
  pose proof (Z.div_mod (Data.month i - 1) 3 ltac:(lia)) as Hdiv.
  pose proof (Z.mod_pos_bound (Data.month i - 1) 3 ltac:(lia)) as Hmod.
  repeat split; try lia. f_equal. lia.
Qed.

Lemma month_fallback_temporal_witness :
  exists f,
    FeatureEngineering._apply_feature_engineering sample_input = inr f
    /\ Data.quarter f = Some 4 /\ Data.day_of_year f = Some 300.
Proof.
  destruct (month_fallback_temporal sample_input eq_refl)
    as (f & q & Hf & Hq & _ & _ & Hd & _).
  { vm_compute. split; discriminate. }
  exists f. split; [exact Hf |].
  vm_compute in Hf. inversion Hf; subst f. split; reflexivity.
Defined.

(** ** Features at training time and at prediction time *)

(** The rows [load_and_prepare_data] returns, column by column. *)
Lemma load_and_prepare_data_rows read_csv groupby_transform file_path df :
  Trainer.load_and_prepare_data read_csv groupby_transform file_path = inr df ->
  exists csv,
    read_csv file_path = inr csv
    /\ length df = length csv
    /\ forall r, r ∈ df ->
         (forall s, Trainer.date (Trainer.obs r) <> Data.BadDate s)
         /\ Trainer.obs r ∈ csv
         /\ (Trainer.day_of_year r, Trainer.quarter r, Trainer.is_weekend r)
            = temporal_of_date (date_parts_of (Trainer.date (Trainer.obs r)))
         /\ Trainer.season r = Trainer.season_map !! Trainer.month (Trainer.obs r)
         /\ Trainer.temp_rainfall_ratio r
            = (Trainer.temperature (Trainer.obs r)
               / (Trainer.rainfall (Trainer.obs r) + 1))%Q
         /\ Trainer.humidity_temp_interaction r
            = (Trainer.humidity (Trainer.obs r) * Trainer.temperature (Trainer.obs r))%Q
         /\ Trainer.weather_stress r
            = FeatureEngineering.weather_stress_of
                (Trainer.temperature (Trainer.obs r)) (Trainer.rainfall (Trainer.obs r))
         /\ Trainer.prev_year_price_ratio r
            = (Trainer.price (Trainer.obs r)
               / (Trainer.prev_year_price (Trainer.obs r) + 1))%Q
         /\ Trainer.crop_category r
            = FeatureEngineering.crop_category_map !! Trainer.crop (Trainer.obs r)
         /\ Trainer.state_economic_factor r
            = FeatureEngineering.state_economic_factors !! Trainer.state (Trainer.obs r)
         /\ Trainer.soil_productivity r
            = FeatureEngineering.soil_productivity_map
                !! Trainer.soil_type (Trainer.obs r).
Proof.
  unfold Trainer.load_and_prepare_data, bind.
  destruct (read_csv file_path) as [e | csv]; [discriminate |].
  match goal with
  | |- match ?d with inl _ => _ | inr _ => _ end = _ -> _ =>
      destruct d as [e | dates] eqn:Hdates
  end; [discriminate |].
  intros H. inversion H; subst df; clear H.
  exists csv. split; [reflexivity |]. split; [apply length_imap |].
  assert (forall k o, csv !! k = Some o ->
            dates !! k = Some (date_parts_of (Trainer.date o))
            /\ forall s, Trainer.date o <> Data.BadDate s) as Hparsed.
  { clear -Hdates. revert dates Hdates.
    induction csv as [| o csv IH]; intros dates Hdates k o' Hk; [discriminate Hk |].
    destruct (Trainer.date o) as [| s | d] eqn:Ho; [| discriminate Hdates |];
      unfold bind in Hdates;
      match type of Hdates with
      | match ?rest with inl _ => _ | inr _ => _ end = _ =>
          destruct rest as [e | ds] eqn:Hrest
      end; try discriminate Hdates;
      inversion Hdates; subst dates; clear Hdates;
      (destruct k as [| k]; simpl in Hk;
       [ inversion Hk; subst o'; rewrite Ho; split; [reflexivity | discriminate]
       | exact (IH ds eq_refl k o' Hk) ]). }
  intros r Hr. apply elem_of_lookup_imap in Hr as (k & o & -> & Hk).
  destruct (Hparsed k o Hk) as [Hd Hgood]. simpl.
  split; [exact Hgood |].
  split; [exact (list_elem_of_lookup_2 _ _ _ Hk) |].
  rewrite Hd. simpl. repeat split.
Qed.

(** X10: for the same raw values, the features derived at prediction
    time agree with those of a training row on the temporal columns, the
    season, the two weather interactions and the weather stress; the
    three table lookups agree where the key is in the table, and where it
    is not the training row has a missing value while prediction has the
    default.  The price aggregates do not carry over: prediction uses
    fixed constants, and a price ratio of 1 when the input has no
    price. *)
Theorem train_serve_feature_parity :
  forall read_csv groupby_transform file_path df r i f,
    Trainer.load_and_prepare_data read_csv groupby_transform file_path = inr df ->
    r ∈ df ->
    same_raw (Trainer.obs r) i ->
    FeatureEngineering._apply_feature_engineering i = inr f ->
    Data.day_of_year f = Trainer.day_of_year r
    /\ Data.quarter f = Trainer.quarter r
    /\ Data.is_weekend f = Trainer.is_weekend r
    /\ Data.season f = Trainer.season r
    /\ Data.temp_rainfall_ratio f = Trainer.temp_rainfall_ratio r
    /\ Data.humidity_temp_interaction f = Trainer.humidity_temp_interaction r
    /\ Data.weather_stress f = Trainer.weather_stress r
    /\ Data.crop_category f
       = FeatureEngineering.fillna "Other" (Trainer.crop_category r)
    /\ Data.state_economic_factor f
       = FeatureEngineering.fillna (1 # 1)%Q (Trainer.state_economic_factor r)
    /\ Data.soil_productivity f
       = FeatureEngineering.fillna (1 # 1)%Q (Trainer.soil_productivity r)
    /\ (Data.price_volatility f, Data.price_trend f, Data.crop_demand_score f,
        Data.state_crop_specialization f) = (100, 0, 2000, 100)%Q
    /\ Data.prev_year_price_ratio f
       = match Data.price i with
         | Some p => (p / (Trainer.prev_year_price (Trainer.obs r) + 1))%Q
         | None => 1%Q
         end.
Proof.
  intros read_csv gt file_path df r i f Hdf Hr Hraw Hf.
  destruct (load_and_prepare_data_rows _ _ _ _ Hdf) as (csv & _ & _ & Hrows).
  destruct (Hrows r Hr)
    as (_ & _ & Htemporal & Hseason & Hratio & Hinter & Hstress & _
        & Hcrop & Hstate & Hsoil).
  destruct Hraw as (Hc & Hs & Hso & Hm & Ht & Hrain & Hh & Hp & Hd).
  unfold FeatureEngineering._apply_feature_engineering,
    FeatureEngineering.temporal, bind in Hf.
  rewrite Hd in Hf. inversion Htemporal as [[Hdoy Hq Hw]].
  rewrite Hseason, Hratio, Hinter, Hstress, Hcrop, Hstate, Hsoil, Hdoy, Hq, Hw.
  destruct (Trainer.date (Trainer.obs r)) as [| s | d]; [| discriminate Hf |];
    inversion Hf; subst f; clear Hf; simpl;
    rewrite Hc, Hs, Hso, Hm, Ht, Hrain, Hh, Hp; repeat split.
Qed.

Lemma same_raw_input_of_observation o : same_raw o (input_of_observation o).
Proof. unfold same_raw. simpl. repeat split. Qed.

Lemma train_serve_feature_parity_witness :
  exists r f,
    head example_table = Some r
    /\ FeatureEngineering._apply_feature_engineering
         (input_of_observation (Trainer.obs r)) = inr f
    /\ Data.season f = Trainer.season r
    /\ Data.day_of_year f = Trainer.day_of_year r
    /\ Data.crop_category f
       = FeatureEngineering.fillna "Other" (Trainer.crop_category r).
Proof.
  assert (Trainer.load_and_prepare_data example_read_csv example_groupby_transform
            "data/processed/crop_prices.csv" = inr example_table) as Hdf
    by (vm_compute; reflexivity).
  destruct (head example_table) as [r |] eqn:Hhead;
    [| vm_compute in Hhead; discriminate Hhead].
  assert (r ∈ example_table) as Hr.
  { rewrite head_lookup in Hhead. exact (list_elem_of_lookup_2 _ _ _ Hhead). }
  destruct (FeatureEngineering._apply_feature_engineering
              (input_of_observation (Trainer.obs r))) as [e | f] eqn:Hf.
  - exfalso. destruct (load_and_prepare_data_rows _ _ _ _ Hdf) as (csv & _ & _ & Hrows).
    destruct (Hrows r Hr) as (Hgood & _).
    unfold FeatureEngineering._apply_feature_engineering,
      FeatureEngineering.temporal, bind in Hf. simpl in Hf.
    destruct (Trainer.date (Trainer.obs r)) as [| s | d];
      [discriminate Hf | exact (Hgood s eq_refl) | discriminate Hf].
  - exists r, f. split; [reflexivity |]. split; [exact Hf |].
    destruct (train_serve_feature_parity _ _ _ _ r _ f Hdf Hr
                (same_raw_input_of_observation (Trainer.obs r)) Hf)
      as (Hdoy & _ & _ & Hseason & _ & _ & _ & Hcrop & _).
    repeat split; assumption.
Defined.

(** ** The files a training run leaves, and loading them back *)



Section PersistedModels.

Import Sklearn Trainer.

Context {Pipeline Ensemble : Type}.
Variable joblib_load :
  gmap string (@file Pipeline Ensemble) -> string ->
  Exc (option (@artifact Pipeline Ensemble)).
Variable read_csv : string -> Exc (list observation).
Variable groupby_transform :
  list string -> string -> list observation -> list (option Q).
Variable train_test_split : train_test_split_t.
Variable pipeline_fit :
  string -> nat -> list train_features -> list Q -> Exc Pipeline.
Variable pipeline_predict : Pipeline -> list train_features -> Exc (list Q).
Variable voting_fit :
  list (string * Pipeline) -> list train_features -> list Q -> Exc Ensemble.
Variable voting_predict : Ensemble -> list train_features -> Exc (list Q).
Variable mean_absolute_error r2_score root_mean_squared_error :
  list Q -> list Q -> Q.

(** What a training run on a new predictor has done when it returns. *)
Lemma train_returns now file_path fs a self' fs' :
  train read_csv groupby_transform train_test_split pipeline_fit
    pipeline_predict voting_fit voting_predict mean_absolute_error r2_score
    root_mean_squared_error now file_path init fs
  = inr (a, self', fs') ->
  exists df X_train X_test y_train y_test ps ms e,
    load_and_prepare_data read_csv groupby_transform file_path = inr df
    /\ split_data train_test_split df = inr (X_train, X_test, y_train, y_test)
    /\ Forall2 (fitted pipeline_fit X_train y_train) candidates ps
    /\ Forall2 (scored pipeline_predict mean_absolute_error r2_score
                  root_mean_squared_error X_test y_test) ps ms
    /\ models self' = zip candidates ps
    /\ model_performance self' = zip candidates ms
    /\ best_model self' = Some (VotingEnsemble e)
    /\ a = VotingEnsemble e
    /\ fs' = save_models now self' fs.
Proof.
  intros H. unfold train, bind in H.
  destruct (load_and_prepare_data read_csv groupby_transform file_path)
    as [? | df] eqn:Hdf; [discriminate |].
  destruct (split_data train_test_split df)
    as [? | [[[X_train X_test] y_train] y_test]] eqn:Hsplit; [discriminate |].
  destruct (train_ensemble_models _ _ _ _ _ X_train y_train X_test y_test init)
    as [? | [best_model_name self1]] eqn:Htem; [discriminate |].
  destruct (create_ensemble_predictor _ X_train y_train self1)
    as [? | e] eqn:Hens; [discriminate |].
  destruct (voting_predict e X_test); [discriminate |].
  inversion H; subst a self' fs'; clear H.
  unfold train_ensemble_models, bind in Htem.
  destruct (train_candidates _ _ _ _ _ X_train y_train X_test y_test candidates init)
    as [? | self0] eqn:Hloop; [discriminate |].
  destruct (Py.max_by _ (model_performance self0)) as [? | best]; [discriminate |].
  destruct (Py.dict_get best.1 (models self0)) as [? | pbest]; [discriminate |].
  inversion Htem; subst best_model_name self1; clear Htem.
  destruct (train_candidates_init _ _ _ _ _ _ _ _ _ _ Hloop)
    as (ps & ms & Hfit & Hscore & Hmodels & Hperf & _).
  exists df, X_train, X_test, y_train, y_test, ps, ms, e.
  simpl. repeat split; assumption.
Qed.



(** X12: with [joblib.load] returning what was dumped, the model a
    training run persisted is the one [create_prediction_pipeline] loads
    afterwards, without training again and without touching the files;
    and when the model file is missing, [create_prediction_pipeline] is
    exactly a training run on the default data file: its predictor and
    files on success, its exception on failure. *)
Theorem saved_model_loads_back :
  Serving.joblib_contract joblib_load ->
  (forall now file_path fs a self' fs' now',
      train read_csv groupby_transform train_test_split pipeline_fit
        pipeline_predict voting_fit voting_predict mean_absolute_error r2_score
        root_mean_squared_error now file_path init fs
      = inr (a, self', fs') ->
      exists predictor,
        Serving.create_prediction_pipeline joblib_load read_csv groupby_transform
          train_test_split pipeline_fit pipeline_predict voting_fit voting_predict
          mean_absolute_error r2_score root_mean_squared_error now' fs'
        = inr (predictor, fs')
        /\ best_model predictor = Some a)
  /\ (forall now fs,
        fs !! Serving.model_path = None ->
        Serving.create_prediction_pipeline joblib_load read_csv groupby_transform
          train_test_split pipeline_fit pipeline_predict voting_fit voting_predict
          mean_absolute_error r2_score root_mean_squared_error now fs
        = match train read_csv groupby_transform train_test_split pipeline_fit
                  pipeline_predict voting_fit voting_predict mean_absolute_error
                  r2_score root_mean_squared_error now
                  "data/processed/crop_prices.csv" init fs with
          | inr (_, predictor, fs') => inr (predictor, fs')
          | inl e => inl e
          end).
Proof.
  intros Hjoblib. split.
  - intros now file_path fs a self' fs' now' H.
    destruct (train_returns _ _ _ _ _ _ H)
      as (df & X_train & X_test & y_train & y_test & ps & ms & e
          & _ & _ & _ & _ & Hmodels & _ & Hbest & -> & ->).
    assert (save_models now self' fs !! Serving.model_path
            = Some (PickledBestModel (best_model self'))) as Hfile.
    { apply save_models_best. intros n p Hin. rewrite Hmodels in Hin.
      exact (elem_of_zip_l _ _ _ _ Hin). }
    destruct (Hjoblib (save_models now self' fs) Serving.model_path) as [_ Hload].
    specialize (Hload _ Hfile).
    unfold Serving.create_prediction_pipeline, Serving.load_model, bind.
    rewrite Hload. eexists. split; [reflexivity |]. simpl. exact Hbest.
  - intros now fs Hmissing.
    destruct (Hjoblib fs Serving.model_path) as [Hnone _].
    destruct (Hnone Hmissing) as [msg Hload].
    unfold Serving.create_prediction_pipeline, Serving.load_model, bind.
    rewrite Hload.
    destruct (train _ _ _ _ _ _ _ _ _ _ now _ init fs) as [e | [[a p] fs']];
      reflexivity.
Qed.

End PersistedModels.

Lemma example_joblib_contract : Serving.joblib_contract example_joblib_load.
Proof.
  intros fs path. unfold example_joblib_load. split.
  - intros ->. eexists. reflexivity.
  - intros a ->. reflexivity.
Qed.


Lemma saved_model_loads_back_witness :
  exists a self' fs',
    example_train ∅ = inr (a, self', fs')
    /\ Serving.create_prediction_pipeline example_joblib_load example_read_csv
         example_groupby_transform tail_split example_pipeline_fit
         example_pipeline_predict example_voting_fit example_voting_predict
         example_error example_r2_score example_error "2024-01-01T00:00:00" ∅
       = inr (self', fs')
    /\ exists predictor,
         Serving.create_prediction_pipeline example_joblib_load example_read_csv
           example_groupby_transform tail_split example_pipeline_fit
           example_pipeline_predict example_voting_fit example_voting_predict
           example_error example_r2_score example_error "2024-06-01T00:00:00" fs'
         = inr (predictor, fs')
         /\ Trainer.best_model predictor = Some a.
Proof.
  destruct (saved_model_loads_back example_joblib_load example_read_csv
              example_groupby_transform tail_split example_pipeline_fit
              example_pipeline_predict example_voting_fit example_voting_predict
              example_error example_r2_score example_error example_joblib_contract)
    as [Hload Hmissing].
  specialize (Hmissing "2024-01-01T00:00:00" ∅ (lookup_empty _)).
  fold (example_train ∅) in Hmissing.
  destruct (example_train ∅) as [err | [[a self'] fs']] eqn:Hrun.
  - apply (f_equal served_artifact) in Hrun. lazy in Hrun. discriminate Hrun.
  - exists a, self', fs'. split; [reflexivity |]. split; [exact Hmissing |].
    exact (Hload _ _ _ _ _ _ "2024-06-01T00:00:00" Hrun).
Defined.

(** ** Accounts and tokens *)

Section Accounts.

Import Auth.

Context {token : Type}.
Variable pwd_hash : string -> string -> string.
Variable pwd_verify : string -> string -> bool.
Variable jwt_encode : claims -> string -> token.
Variable jwt_decode : Z -> token -> string -> option claims.

Lemma select_by_username_none name (db : users_table) :
  select_by_username name db = None <-> Forall (fun r : UserInDB => username r <> name) db.
Proof.
  unfold select_by_username. induction db as [| r db IH]; simpl.
  - split; [constructor | reflexivity].
  - destruct (String.eqb (username r) name) eqn:E.
    + apply String.eqb_eq in E. split; [discriminate |].
      intros H. inversion H; subst. contradiction.
    + apply String.eqb_neq in E. rewrite IH. split.
      * intros H. constructor; assumption.
      * intros H. inversion H; assumption.
Qed.

Lemma select_by_username_or_email_none name mail (db : users_table) :
  select_by_username_or_email name mail db = None
  <-> Forall (fun r : UserInDB => username r <> name /\ email r <> mail) db.
Proof.
  unfold select_by_username_or_email. induction db as [| r db IH]; simpl.
  - split; [constructor | reflexivity].
  - destruct (String.eqb (username r) name) eqn:E1; simpl.
    + apply String.eqb_eq in E1. split; [discriminate |].
      intros H. inversion H as [| ? ? [Hn _] _]; subst. contradiction.
    + apply String.eqb_neq in E1.
      destruct (String.eqb (email r) mail) eqn:E2.
      * apply String.eqb_eq in E2. split; [discriminate |].
        intros H. inversion H as [| ? ? [_ Hm] _]; subst. contradiction.
      * apply String.eqb_neq in E2. rewrite IH. split.
        -- intros H. constructor; [split |]; assumption.
        -- intros H. inversion H; assumption.
Qed.

Lemma select_by_username_or_email_some name mail (db : users_table) (r : UserInDB) :
  select_by_username_or_email name mail db = Some r ->
  r ∈ db /\ (username r = name \/ email r = mail).
Proof.
  unfold select_by_username_or_email. intros H.
  apply find_some in H as [Hin Hb]. split.
  - apply list_elem_of_In. exact Hin.
  - apply orb_true_iff in Hb as [Hb | Hb]; apply String.eqb_eq in Hb; auto.
Qed.

Lemma select_by_username_app name (db later : users_table) (r : UserInDB) :
  select_by_username name db = Some r ->
  select_by_username name (db ++ later) = Some r.
Proof.
  unfold select_by_username. induction db as [| r' db IH]; simpl; [discriminate |].
  destruct (String.eqb (username r') name); [trivial | exact IH].
Qed.

Lemma select_by_username_new name (db : users_table) (r : UserInDB) :
  Forall (fun r : UserInDB => username r <> name) db ->
  username r = name ->
  select_by_username name (db ++ [r]) = Some r.
Proof.
  unfold select_by_username. intros Hall Hr.
  induction Hall as [| r' db Hr' _ IH]; simpl.
  - rewrite Hr, String.eqb_refl. reflexivity.
  - apply String.eqb_neq in Hr'. rewrite Hr'. exact IH.
Qed.

Lemma select_by_username_name name (db : users_table) (r : UserInDB) :
  select_by_username name db = Some r -> r ∈ db /\ username r = name.
Proof.
  unfold select_by_username. intros H. apply find_some in H as [Hin Hb].
  split; [apply list_elem_of_In; exact Hin | apply String.eqb_eq; exact Hb].
Qed.

Lemma insert_user_fresh now name mail hashed full role_ (db : users_table) :
  Forall (fun r : UserInDB => username r <> name /\ email r <> mail) db ->
  insert_user now name mail hashed full role_ db
  = inr (db ++ [ {| UserInDB_User :=
                      {| username := name; email := mail; full_name := full;
                         role := role_; is_active := Some true |};
                    hashed_password := hashed;
                    id := next_id db;
                    created_at := now |} ]).
Proof.
  intros Hall. unfold insert_user.
  replace (existsb (fun r : UserInDB => String.eqb (username r) name) db) with false.
  2:{ symmetry. apply not_true_is_false. intros H.
      apply existsb_exists in H as (r & Hin & Hb). apply String.eqb_eq in Hb.
      rewrite Forall_forall in Hall. apply list_elem_of_In in Hin.
      destruct (Hall r Hin) as [Hn _]. contradiction. }
  replace (existsb (fun r : UserInDB => String.eqb (email r) mail) db) with false.
  2:{ symmetry. apply not_true_is_false. intros H.
      apply existsb_exists in H as (r & Hin & Hb). apply String.eqb_eq in Hb.
      rewrite Forall_forall in Hall. apply list_elem_of_In in Hin.
      destruct (Hall r Hin) as [_ Hm]. contradiction. }
  reflexivity.
Qed.

Lemma ids_below_next (db : users_table) (r : UserInDB) : r ∈ db -> id r < next_id db.
Proof.
  unfold next_id. induction db as [| r' db IH]; intros Hin.
  - inversion Hin.
  - apply elem_of_cons in Hin as [-> | Hin]; simpl.
    + lia.
    + specialize (IH Hin). lia.
Qed.

Lemma register_user_cases salt now (user : UserCreate) (db : users_table) :
  (Exists (fun r : UserInDB =>
             username r = username user \/ email r = email user) db
   /\ register_user pwd_hash salt now user db
      = (inl (HTTP 400 "Username or email already registered"), db))
  \/ (Forall (fun r : UserInDB =>
                username r <> username user /\ email r <> email user) db
      /\ register_user pwd_hash salt now user db
         = (inr (columns_of (new_row pwd_hash salt now user db)),
            db ++ [new_row pwd_hash salt now user db])).
Proof.
  unfold register_user.
  destruct (select_by_username_or_email (username user) (email user) db)
    as [r |] eqn:Hsel.
  - left. split; [| reflexivity].
    apply select_by_username_or_email_some in Hsel as [Hin Hr].
    apply Exists_exists. exists r. split; assumption.
  - right. apply select_by_username_or_email_none in Hsel.
    split; [exact Hsel |].
    unfold get_password_hash. rewrite (insert_user_fresh _ _ _ _ _ _ _ Hsel).
    fold (new_row pwd_hash salt now user db).
    rewrite (select_by_username_new (username user) db (new_row pwd_hash salt now user db)).
    + reflexivity.
    + eapply Forall_impl; [exact Hsel |]. intros r [Hn _]. exact Hn.
    + reflexivity.
Qed.


Lemma select_by_username_with_is_active flag name (db : users_table) :
  select_by_username name (map (with_is_active flag) db)
  = option_map (with_is_active flag) (select_by_username name db).
Proof.
  unfold select_by_username. induction db as [| r db IH]; simpl; [reflexivity |].
  destruct (String.eqb (username r) name); [reflexivity | exact IH].
Qed.

(** X13: [register_user] has two outcomes and no other, whatever the
    table: if some row already has the username or the email, the
    answer is the 400 and the table is unchanged; otherwise exactly one
    row is appended, active whatever [is_active] the request carried,
    with the next id, the hash of the password and the requested names,
    and its columns are returned.  In particular the insert never
    violates a constraint. *)
Theorem register_user_creates_or_rejects salt now (user : UserCreate)
    (db : users_table) :
  (Exists (fun r : UserInDB =>
             username r = username user \/ email r = email user) db
   /\ register_user pwd_hash salt now user db
      = (inl (HTTP 400 "Username or email already registered"), db))
  \/ (Forall (fun r : UserInDB =>
                username r <> username user /\ email r <> email user) db
      /\ register_user pwd_hash salt now user db
         = (inr (columns_of (new_row pwd_hash salt now user db)),
            db ++ [new_row pwd_hash salt now user db])
      /\ is_active (new_row pwd_hash salt now user db) = Some true
      /\ Forall (fun r : UserInDB =>
                   id r < id (new_row pwd_hash salt now user db)) db).
Proof.
  destruct (register_user_cases salt now user db) as [H | [Hall Hrun]].
  - left. exact H.
  - right. repeat split; try assumption.
    apply Forall_forall. intros r Hr. simpl. apply ids_below_next. exact Hr.
Qed.

(** X14: registration keeps the table's constraints: if usernames,
    emails and ids are each without repetition before a call of
    [register_user], they are so afterwards, whether the call succeeds
    or not. *)
Theorem register_user_keeps_unique salt now (user : UserCreate)
    (db : users_table) :
  well_formed db ->
  well_formed (snd (register_user pwd_hash salt now user db)).
Proof.
  intros (Hn & Hm & Hi).
  destruct (register_user_cases salt now user db) as [[_ ->] | [Hall ->]]; simpl.
  - repeat split; assumption.
  - unfold well_formed. rewrite !map_app. simpl.
    rewrite Forall_forall in Hall.
    repeat split; apply NoDup_app; (split; [assumption |]);
      (split; [| apply NoDup_singleton]);
      intros x Hx Hx'; apply list_elem_of_singleton in Hx'; subst x;
      apply list_elem_of_In, in_map_iff in Hx as (r & Hr & Hin);
      apply list_elem_of_In in Hin.
    + destruct (Hall r Hin) as [H _]. contradiction.
    + destruct (Hall r Hin) as [_ H]. contradiction.
    + pose proof (ids_below_next db r Hin). lia.
Qed.

(** X15: register, then log in: when a password verifies against its
    own hash, a user whose registration succeeded is authenticated by
    the same username and password on the resulting table, as the row
    whose id the registration returned, and [login_for_access_token]
    answers with a bearer token for that username that expires thirty
    minutes later. *)
Theorem registered_user_can_log_in :
  pwd_contract pwd_hash pwd_verify ->
  forall salt now (user : UserCreate) (db db' : users_table) answer utcnow,
    register_user pwd_hash salt now user db = (inr answer, db') ->
    (exists row : UserInDB,
        authenticate_user pwd_verify (username user) (password user) db' = Some row
        /\ id row = registered_id answer
        /\ username row = username user
        /\ email row = email user)
    /\ login_for_access_token pwd_verify jwt_encode utcnow
         (username user) (password user) db'
       = inr {| access_token :=
                  jwt_encode {| sub := Some (username user);
                                exp := Some (utcnow + 1800) |} SECRET_KEY;
                token_type := "bearer" |}.
Proof.
  intros Hpwd salt now user db db' answer utcnow Hrun.
  destruct (register_user_cases salt now user db) as [[_ H] | [Hall H]];
    rewrite H in Hrun; [discriminate |].
  injection Hrun as <- <-.
  assert (Hauth : authenticate_user pwd_verify (username user) (password user)
                    (db ++ [new_row pwd_hash salt now user db])
                  = Some (new_row pwd_hash salt now user db)).
  { unfold authenticate_user, get_user.
    rewrite (select_by_username_new (username user) db
               (new_row pwd_hash salt now user db)).
    - unfold verify_password. simpl. rewrite Hpwd. reflexivity.
    - eapply Forall_impl; [exact Hall |]. intros r [Hn _]. exact Hn.
    - reflexivity. }
  split.
  - exists (new_row pwd_hash salt now user db). repeat split. exact Hauth.
  - unfold login_for_access_token. rewrite Hauth. reflexivity.
Qed.

(** X16: log in, then call: when a token decodes to its claims until
    it expires, the token [login_for_access_token] issued at [utcnow] is
    accepted by [get_current_user] at any time up to thirty minutes
    later, also after further registrations, and resolves to the very
    user that was authenticated. *)
Theorem token_admits_its_user :
  jwt_contract jwt_encode jwt_decode ->
  forall utcnow name pw (db later : users_table) (tok : Token token) utcnow',
    login_for_access_token pwd_verify jwt_encode utcnow name pw db = inr tok ->
    utcnow' <= utcnow + 30 * 60 ->
    exists user : UserInDB,
      authenticate_user pwd_verify name pw db = Some user
      /\ username user = name
      /\ get_current_user jwt_decode utcnow' (access_token tok) (db ++ later)
         = inr user.
Proof.
  intros Hjwt utcnow name pw db later tok utcnow' Hlogin Hfresh.
  unfold login_for_access_token in Hlogin.
  destruct (authenticate_user pwd_verify name pw db) as [user |] eqn:Hauth;
    [| discriminate].
  injection Hlogin as <-. exists user.
  unfold authenticate_user, get_user in Hauth.
  destruct (select_by_username name db) as [r |] eqn:Hsel; [| discriminate].
  destruct (verify_password pwd_verify pw (hashed_password r)); [| discriminate].
  injection Hauth as ->.
  destruct (select_by_username_name _ _ _ Hsel) as [_ Hname].
  split; [reflexivity |]. split; [exact Hname |].
  unfold get_current_user, create_access_token. simpl.
  rewrite (Hjwt _ (utcnow + 1800) SECRET_KEY utcnow'); [| reflexivity | lia].
  simpl. unfold get_user. rewrite Hname.
  rewrite (select_by_username_app _ _ later _ Hsel). reflexivity.
Qed.

(** X17: the [is_active] column is never consulted: replacing the flags
    of the rows in any way changes neither the answer of
    [login_for_access_token] nor whom [get_current_user] admits, so a
    deactivated account logs in and calls as before. *)
Theorem is_active_never_consulted flag utcnow name pw tok (db : users_table) :
  login_for_access_token pwd_verify jwt_encode utcnow name pw
    (map (with_is_active flag) db)
  = login_for_access_token pwd_verify jwt_encode utcnow name pw db
  /\ get_current_user jwt_decode utcnow tok (map (with_is_active flag) db)
     = match get_current_user jwt_decode utcnow tok db with
       | inr user => inr (with_is_active flag user)
       | inl e => inl e
       end.
Proof.
  split.
  - unfold login_for_access_token, authenticate_user, get_user.
    rewrite select_by_username_with_is_active.
    destruct (select_by_username name db) as [r |]; simpl; [| reflexivity].
    destruct (verify_password pwd_verify pw (hashed_password r)); reflexivity.
  - unfold get_current_user, get_user.
    destruct (jwt_decode utcnow tok SECRET_KEY) as [payload |]; [| reflexivity].
    destruct (sub payload) as [n |]; [| reflexivity].
    rewrite select_by_username_with_is_active.
    destruct (select_by_username n db); reflexivity.
Qed.

End Accounts.

Section AccountExamples.

Import Auth.

Lemma example_pwd_contract : Auth.pwd_contract example_pwd_hash example_pwd_verify.
Proof.
  intros salt p. unfold example_pwd_verify, example_pwd_hash. apply String.eqb_refl.
Qed.

Lemma example_jwt_contract : Auth.jwt_contract example_jwt_encode example_jwt_decode.
Proof.
  intros payload expire key utcnow Hexp Hle.
  unfold example_jwt_decode, example_jwt_encode. simpl.
  rewrite String.eqb_refl, Hexp.
  apply Z.leb_le in Hle. rewrite Hle. reflexivity.
Qed.

Lemma register_user_keeps_unique_witness :
  Auth.well_formed example_users
  /\ Auth.well_formed
       (snd (Auth.register_user example_pwd_hash "pepper" "2024-01-02 00:00:00"
               example_user example_users)).
Proof.
  assert (H : Auth.well_formed example_users).
  { repeat split; apply NoDup_singleton. }
  split; [exact H |].
  apply (register_user_keeps_unique example_pwd_hash "pepper"
           "2024-01-02 00:00:00" example_user example_users H).
Defined.

Lemma registered_user_can_log_in_witness :
  exists answer db',
    Auth.register_user example_pwd_hash "pepper" "2024-01-02 00:00:00"
      example_user example_users = (inr answer, db')
    /\ Auth.registered_id answer = 2
    /\ Auth.login_for_access_token example_pwd_verify example_jwt_encode 1000
         "asha" "s3cret" db'
       = inr {| Auth.access_token :=
                  example_jwt_encode {| Auth.sub := Some "asha";
                                        Auth.exp := Some 2800 |} Auth.SECRET_KEY;
                Auth.token_type := "bearer" |}.
Proof.
  eexists. eexists. split; [reflexivity |]. split; [reflexivity |].
  refine (proj2 (registered_user_can_log_in example_pwd_hash example_pwd_verify
                   example_jwt_encode example_pwd_contract "pepper"
                   "2024-01-02 00:00:00" example_user example_users _ _ 1000 _)).
  reflexivity.
Defined.

Lemma token_admits_its_user_witness :
  exists (tok : Auth.Token (Auth.claims * string)) (user : Auth.UserInDB),
    Auth.login_for_access_token example_pwd_verify example_jwt_encode 1000
      "ravi" "pw" example_users = inr tok
    /\ Auth.username user = "ravi"
    /\ Auth.get_current_user example_jwt_decode 2800 (Auth.access_token tok)
         (example_users ++ [Auth.new_row example_pwd_hash "pepper"
                              "2024-01-02 00:00:00" example_user example_users])
       = inr user.
Proof.
  destruct (Auth.login_for_access_token example_pwd_verify example_jwt_encode 1000
              "ravi" "pw" example_users) as [e | tok] eqn:Hlogin.
  - vm_compute in Hlogin. discriminate Hlogin.
  - destruct (token_admits_its_user example_pwd_verify example_jwt_encode
                example_jwt_decode example_jwt_contract 1000 "ravi" "pw"
                example_users
                [Auth.new_row example_pwd_hash "pepper" "2024-01-02 00:00:00"
                   example_user example_users]
                tok 2800 Hlogin ltac:(lia))
      as (user & _ & Hname & Hcall).
    exists tok, user. split; [reflexivity |]. split; [exact Hname | exact Hcall].
Defined.

End AccountExamples.

(** ** Price alerts *)

Section PriceAlerts.

Import Alerts.

Variable order_by_created_at_desc : list price_alert -> list price_alert.

Lemma selected_spec active_only (current_user : Auth.UserInDB) (row : price_alert) :
  selected active_only current_user row = true
  <-> user_id row = Auth.id current_user
      /\ (active_only = true -> is_active row = true).
Proof.
  unfold selected. rewrite andb_true_iff, Z.eqb_eq.
  destruct active_only; intuition congruence.
Qed.

(** X18: [get_price_alerts] lists a user's own alerts and no others:
    whatever order the query returns rows of one timestamp in, an entry
    is listed exactly when it is the image of a row of the table whose
    [user_id] is the caller's id and which, under [active_only], is
    active. *)
Theorem price_alerts_of_current_user :
  order_contract order_by_created_at_desc ->
  forall active_only (current_user : Auth.UserInDB) (db : price_alerts_table)
         (entry : alert),
    entry ∈ get_price_alerts order_by_created_at_desc active_only current_user db
    <-> exists row : price_alert,
          row ∈ db
          /\ user_id row = Auth.id current_user
          /\ (active_only = true -> is_active row = true)
          /\ entry = alert_of row.
Proof.
  intros Horder active_only current_user db entry.
  unfold get_price_alerts. rewrite list_elem_of_In, in_map_iff. split.
  - intros (row & <- & Hin).
    apply (Permutation_in _ (Horder _)) in Hin.
    apply filter_In in Hin as [Hin Hsel]. apply selected_spec in Hsel as [Hu Ha].
    exists row. rewrite list_elem_of_In. auto.
  - intros (row & Hin & Hu & Ha & ->). exists row. split; [reflexivity |].
    apply (Permutation_in _ (Permutation_sym (Horder _))).
    apply filter_In. split; [apply list_elem_of_In; exact Hin |].
    apply selected_spec. auto.
Qed.

(** X19: create, then list: after [create_price_alert], the caller's
    list holds the new alert, active, with the submitted columns, the
    next id and no current price; the list of every user with another
    id is what it was before. *)
Theorem created_alert_listed_for_owner_only :
  order_contract order_by_created_at_desc ->
  forall now (a : PriceAlertCreate) (current_user : Auth.UserInDB)
         (db : price_alerts_table) active_only,
    (exists entry : alert,
        entry ∈ get_price_alerts order_by_created_at_desc active_only
                  current_user (snd (create_price_alert now a current_user db))
        /\ alert_columns entry = a
        /\ alert_id entry = next_id db
        /\ alert_is_active entry = true
        /\ alert_current_price entry = None
        /\ alert_created_at entry = now)
    /\ (forall other : Auth.UserInDB,
          Auth.id other <> Auth.id current_user ->
          get_price_alerts order_by_created_at_desc active_only other
            (snd (create_price_alert now a current_user db))
          = get_price_alerts order_by_created_at_desc active_only other db).
Proof.
  intros Horder now a current_user db active_only. split.
  - exists (alert_of {| id := next_id db;
                         user_id := Auth.id current_user;
                         price_alert_columns := a;
                         current_price := None;
                         is_active := true;
                         created_at := now;
                         triggered_at := None |}).
    split; [| repeat split].
    unfold get_price_alerts. apply list_elem_of_In, in_map_iff.
    eexists. split; [reflexivity |].
    apply (Permutation_in _ (Permutation_sym (Horder _))).
    apply filter_In. split.
    + simpl. apply in_or_app. right. left. reflexivity.
    + apply selected_spec. simpl. auto.
  - intros other Hother. unfold get_price_alerts. simpl.
    rewrite List.filter_app. simpl.
    replace (selected active_only other _) with false.
    + rewrite app_nil_r. reflexivity.
    + symmetry. apply not_true_is_false. intros H.
      apply selected_spec in H as [Hu _]. simpl in Hu. congruence.
Qed.

End PriceAlerts.

Lemma rev_order_contract : Alerts.order_contract (@rev Alerts.price_alert).
Proof. intros rows. apply Permutation_sym, Permutation_rev. Qed.

Lemma price_alerts_of_current_user_witness :
  Alerts.alert_of
    {| Alerts.id := 1;
       Alerts.user_id := 1;
       Alerts.price_alert_columns := example_alert;
       Alerts.current_price := None;
       Alerts.is_active := true;
       Alerts.created_at := "2024-01-03 00:00:00";
       Alerts.triggered_at := None |}
  ∈ Alerts.get_price_alerts (@rev Alerts.price_alert) true example_account
      (snd (Alerts.create_price_alert "2024-01-03 00:00:00" example_alert
              example_account [])).
Proof.
  apply (price_alerts_of_current_user (@rev Alerts.price_alert) rev_order_contract).
  eexists. split; [apply list_elem_of_singleton; reflexivity |].
  repeat split.
Defined.

Lemma created_alert_listed_for_owner_only_witness :
  Alerts.get_price_alerts (@rev Alerts.price_alert) true
    (Auth.new_row example_pwd_hash "pepper" "2024-01-02 00:00:00" example_user
       example_users)
    (snd (Alerts.create_price_alert "2024-01-03 00:00:00" example_alert
            example_account []))
  = [].
Proof.
  rewrite (proj2 (created_alert_listed_for_owner_only (@rev Alerts.price_alert)
                    rev_order_contract "2024-01-03 00:00:00" example_alert
                    example_account [] true)).
  - reflexivity.
  - vm_compute. discriminate.
Defined.
